(** * Login demo (FastAPI + Redis): a shallow embedding of [app/main.py]

    The application registers users in a relational table, checks
    credentials with a password hasher, and keeps opaque session tokens in
    a key-value store with a time-to-live.  Every handler of [main.py] is
    written here as a computation in a state-and-exception monad over a
    [World] that holds the two stores, the clock and the operating system's
    random bytes. *)

From Stdlib Require Import ZArith List Ascii String DecimalString DecimalZ Lia.
From stdpp Require Import base option list gmap strings.

Local Open Scope Z_scope.
Local Open Scope string_scope.

(** ** Data model *)

(** [class User(Base)]: a row of table [users]. *)
Record User := mkUser {
  id : Z;
  username : string;
  password_hash : string
}.

(** A [Set-Cookie] header as [Response.set_cookie] builds it. *)
Record Cookie := mkCookie {
  key : string;
  value : string;
  httponly : bool;
  secure : bool;
  samesite : string;
  max_age : Z
}.

(** What a response carries.  Template rendering is outside the program:
    a rendered page is kept as the template's name and its context. *)
Inductive Body :=
| Template (name : string) (user : option User) (error : option string)
| Detail (detail : string)
| MissingFields (fields : list string)
| Text (content : string)
| NoBody.

Record Response := mkResponse {
  status_code : Z;
  location : option string;
  body : Body;
  set_cookies : list Cookie
}.

(** The exceptions that the handlers and their collaborators raise. *)
Inductive exn :=
| HTTPException (code : Z) (detail : string)
| RequestValidationError (fields : list string)
| ConnectionError
| IntegrityError
| MultipleResultsFound
| ValueError.

(** The state the handlers run against: table [users] in insertion order,
    the Redis server (reachable or not, each key with its value and the
    second at which it expires), the clock in seconds, and the bytes that
    [os.urandom] hands out, with the position of the next unread one. *)
Record World := mkWorld {
  users : list User;
  redis_up : bool;
  redis_keys : gmap string (string * Z);
  clock : Z;
  urandom : nat -> Z;
  urandom_pos : nat
}.

Definition set_users (l : list User) (w : World) : World :=
  mkWorld l (redis_up w) (redis_keys w) (clock w) (urandom w) (urandom_pos w).

Definition set_redis_keys (m : gmap string (string * Z)) (w : World) : World :=
  mkWorld (users w) (redis_up w) m (clock w) (urandom w) (urandom_pos w).

Definition set_urandom_pos (n : nat) (w : World) : World :=
  mkWorld (users w) (redis_up w) (redis_keys w) (clock w) (urandom w) n.

Definition set_clock (t : Z) (w : World) : World :=
  mkWorld (users w) (redis_up w) (redis_keys w) t (urandom w) (urandom_pos w).

Definition set_redis_up (b : bool) (w : World) : World :=
  mkWorld (users w) b (redis_keys w) (clock w) (urandom w) (urandom_pos w).

(** ** The monad: state passing with exceptions *)

Inductive result (A : Type) :=
| Ok (a : A)
| Raise (e : exn).
Arguments Ok {A} a.
Arguments Raise {A} e.

Definition M (A : Type) : Type := World -> result A * World.

Definition ret {A} (a : A) : M A := fun w => (Ok a, w).

Definition raise {A} (e : exn) : M A := fun w => (Raise e, w).

Definition bind {A B} (m : M A) (k : A -> M B) : M B :=
  fun w =>
    match m w with
    | (Ok a, w') => k a w'
    | (Raise e, w') => (Raise e, w')
    end.

Notation "'let*' x ':=' m 'in' k" := (bind m (fun x => k))
  (at level 10, x name, m at level 100, k at level 200, only parsing).
Notation "'run' m 'in' k" := (bind m (fun _ => k))
  (at level 10, m at level 100, k at level 200, only parsing).

(** ** Python built-ins *)

(** [str(n)] and [int(s)] on decimal numerals.  Python's [int] also
    accepts a numeral with blanks around it, a plus sign or underscores;
    the strings parsed here are the ones [str] wrote. *)
Definition str (n : Z) : string := NilZero.string_of_int (Z.to_int n).

Definition int (s : string) : M Z :=
  match NilZero.int_of_string s with
  | Some d => ret (Z.of_int d)
  | None => raise ValueError
  end.

(** [int(timedelta(days=d).total_seconds())] *)
Definition timedelta_days_seconds (d : Z) : Z := d * 86400.

(** [os.urandom(n)]: the next [n] bytes of the system's random source. *)
Definition os_urandom (n : nat) : M (list Z) :=
  fun w =>
    (Ok (map (fun i => urandom w i mod 256) (seq (urandom_pos w) n)),
     set_urandom_pos (urandom_pos w + n)%nat w).

(** [base64.urlsafe_b64encode], with padding. *)
Definition b64_alphabet : list ascii :=
  list_ascii_of_string
    "ABCDEFGHIJKLMNOPQRSTUVWXYZabcdefghijklmnopqrstuvwxyz0123456789-_".

Definition b64_char (i : Z) : ascii := nth (Z.to_nat i) b64_alphabet "A"%char.

Fixpoint urlsafe_b64encode (bs : list Z) : list ascii :=
  match bs with
  | [] => []
  | [a] =>
      [b64_char (Z.shiftr a 2);
       b64_char (Z.shiftl (Z.land a 3) 4);
       "="%char; "="%char]
  | [a; b] =>
      [b64_char (Z.shiftr a 2);
       b64_char (Z.lor (Z.shiftl (Z.land a 3) 4) (Z.shiftr b 4));
       b64_char (Z.shiftl (Z.land b 15) 2);
       "="%char]
  | a :: b :: c :: rest =>
      b64_char (Z.shiftr a 2)
      :: b64_char (Z.lor (Z.shiftl (Z.land a 3) 4) (Z.shiftr b 4))
      :: b64_char (Z.lor (Z.shiftl (Z.land b 15) 2) (Z.shiftr c 6))
      :: b64_char (Z.land c 63)
      :: urlsafe_b64encode rest
  end.

(** [s.rstrip(c)] *)
Fixpoint rstrip (c : ascii) (s : list ascii) : list ascii :=
  match s with
  | [] => []
  | x :: s' =>
      match rstrip c s' with
      | [] => if Ascii.eqb x c then [] else [x]
      | t => x :: t
      end
  end.

(** [secrets.token_urlsafe(nbytes)] *)
Definition token_urlsafe (nbytes : nat) : M string :=
  let* tok := os_urandom nbytes in
  ret (string_of_list_ascii (rstrip "="%char (urlsafe_b64encode tok))).

(** ** The Redis client [r] *)

(** [r.get(name)]: the value of a key that has not expired. *)
Definition r_get (name : string) : M (option string) :=
  fun w =>
    if redis_up w then
      (Ok (match redis_keys w !! name with
           | Some (v, expiry) => if (clock w <? expiry)%Z then Some v else None
           | None => None
           end), w)
    else (Raise ConnectionError, w).

(** [r.setex(name, time, value)]: the client sends an integer value as
    its decimal numeral; the key expires [time] seconds from now. *)
Definition r_setex (name : string) (time : Z) (v : Z) : M unit :=
  fun w =>
    if redis_up w then
      (Ok tt, set_redis_keys (<[name := (str v, clock w + time)]> (redis_keys w)) w)
    else (Raise ConnectionError, w).

(** [r.delete(name)] *)
Definition r_delete (name : string) : M unit :=
  fun w =>
    if redis_up w then (Ok tt, set_redis_keys (delete name (redis_keys w)) w)
    else (Raise ConnectionError, w).

(** ** The database session [db] *)

(** [db.execute(select(User).where(User.username == name))] *)
Definition select_where_username (name : string) : M (list User) :=
  fun w => (Ok (List.filter (fun u => String.eqb (username u) name) (users w)), w).

(** [db.execute(select(User).where(User.id == n))] *)
Definition select_where_id (n : Z) : M (list User) :=
  fun w => (Ok (List.filter (fun u => (id u =? n)%Z) (users w)), w).

(** [.scalar_one_or_none()] *)
Definition scalar_one_or_none (rows : list User) : M (option User) :=
  match rows with
  | [] => ret None
  | [u] => ret (Some u)
  | _ => raise MultipleResultsFound
  end.

(** The primary key that an insert assigns: one more than the largest. *)
Definition next_id (l : list User) : Z := 1 + fold_right Z.max 0 (map id l).

(** [db.add(user); db.commit(); db.refresh(user)]: the insert is refused
    when the column [username], declared [unique=True], has the value. *)
Definition db_add_commit_refresh (name hashed : string) : M User :=
  fun w =>
    if existsb (fun u => String.eqb (username u) name) (users w)
    then (Raise IntegrityError, w)
    else
      let user := mkUser (next_id (users w)) name hashed in
      (Ok user, set_users (users w ++ [user])%list w).

(** ** The password hasher [pwd_context]

    [CryptContext(schemes=["bcrypt"])] is a library object: its two
    methods are an interface here.  [hash] salts with 16 random bytes.
    Both methods raise [ValueError] on input that the scheme refuses
    (for bcrypt a password with a NUL byte or of more than 4096 bytes):
    that is the result [None]. *)
Class CryptContext := {
  hash_salted : list Z -> string -> option string;
  verify : string -> string -> option bool
}.

(** An instance of the interface on which the handlers can be run on
    concrete worlds: the hash string is the salt as a number, a dollar
    sign, and a 32-bit polynomial checksum of salt and password.  As
    bcrypt does, it refuses a password that has a NUL byte or more than
    4096 bytes. *)
Definition refused (password : string) : bool :=
  existsb (fun c => Ascii.eqb c "000"%char) (list_ascii_of_string password)
  || (4096 <? String.length password)%nat.

Fixpoint split_dollar (s : string) : option (string * string) :=
  match s with
  | EmptyString => None
  | String c s' =>
      if Ascii.eqb c "$"%char then Some (EmptyString, s')
      else
        match split_dollar s' with
        | Some (a, b) => Some (String c a, b)
        | None => None
        end
  end.

Definition checksum (salt : Z) (password : string) : Z :=
  fold_left (fun acc c => (acc * 31 + Z.of_nat (nat_of_ascii c)) mod 2 ^ 32)
    (list_ascii_of_string password) (salt mod 2 ^ 32).

Definition checksum_context : CryptContext := {|
  hash_salted salt password :=
    if refused password then None
    else
      let n := fold_left (fun acc b => acc * 256 + b) salt 0 in
      Some (str n ++ "$" ++ str (checksum n password));
  verify password hashed :=
    if refused password then None
    else
      Some
        match split_dollar hashed with
        | Some (a, b) =>
            match NilZero.int_of_string a with
            | Some d => String.eqb b (str (checksum (Z.of_int d) password))
            | None => false
            end
        | None => false
        end
|}.

(** ** Requests *)

Inductive Method := GET | POST.

Record Request := mkRequest {
  method : Method;
  path : string;
  cookies : gmap string string;
  form : gmap string string
}.

(** A parameter declared [Form(...)] is required, and the framework reads
    a field sent with an empty value as a field that was not sent. *)
Definition Form (fields : gmap string string) (name : string) : option string :=
  match fields !! name with
  | Some EmptyString => None
  | Some v => Some v
  | None => None
  end.

Definition missing (name : string) (o : option string) : list string :=
  match o with
  | Some _ => []
  | None => [name]
  end.

(** The two parameters [username] and [password] of the POST handlers:
    all the missing ones are reported by one validation error. *)
Definition form_username_password (fields : gmap string string) : M (string * string) :=
  match Form fields "username", Form fields "password" with
  | Some u, Some p => ret (u, p)
  | ou, op =>
      raise (RequestValidationError (missing "username" ou ++ missing "password" op)%list)
  end.

(** Response constructors of the framework. *)
Definition TemplateResponse (name : string) (user : option User)
    (error : option string) : Response :=
  mkResponse 200 None (Template name user error) [].

Definition RedirectResponse (url : string) (code : Z) : Response :=
  mkResponse code (Some url) NoBody [].

Definition HTMLResponse (content : Body) (code : Z) : Response :=
  mkResponse code None content [].

Definition HTTP_303_SEE_OTHER : Z := 303.

(** [response.set_cookie(...)] and [response.delete_cookie(key)], which
    sets the cookie again, empty and with [max_age=0]. *)
Definition set_cookie (response : Response) (c : Cookie) : Response :=
  mkResponse (status_code response) (location response) (body response)
    (set_cookies response ++ [c])%list.

Definition delete_cookie (response : Response) (name : string) : Response :=
  set_cookie response (mkCookie name "" false false "lax" 0).

(** ** The handlers of [main.py] *)

Section App.

Context {pwd_context : CryptContext}.

(** [pwd_context.hash(password)] *)
Definition pwd_context_hash (password : string) : M string :=
  let* salt := os_urandom 16 in
  match hash_salted salt password with
  | Some hashed => ret hashed
  | None => raise ValueError
  end.

(** [pwd_context.verify(password, hashed)] *)
Definition pwd_context_verify (password hashed : string) : M bool :=
  match verify password hashed with
  | Some matches => ret matches
  | None => raise ValueError
  end.

Definition create_user (name password : string) : M User :=
  let* hashed := pwd_context_hash password in
  db_add_commit_refresh name hashed.

Definition authenticate_user (name password : string) : M (option User) :=
  let* rows := select_where_username name in
  let* user := scalar_one_or_none rows in
  match user with
  | None => ret None
  | Some user =>
      let* matches := pwd_context_verify password (password_hash user) in
      if negb matches then ret None
      else ret (Some user)
  end.

Definition set_session_cookie (response : Response) (session_id : string) : Response :=
  set_cookie response
    (mkCookie "session_id" session_id true false "lax" (timedelta_days_seconds 1)).

Definition get_current_user (request : Request) : M (option User) :=
  match cookies request !! "session_id" with
  | None | Some EmptyString => ret None
  | Some session_id =>
      let* user_id := r_get ("session:" ++ session_id) in
      match user_id with
      | None | Some EmptyString => ret None
      | Some user_id =>
          let* n := int user_id in
          let* rows := select_where_id n in
          scalar_one_or_none rows
      end
  end.

Definition home (request : Request) : M Response :=
  let* user := get_current_user request in
  ret (TemplateResponse "home.html" user None).

Definition register_form (request : Request) : M Response :=
  ret (TemplateResponse "register.html" None None).

Definition register (name password : string) : M Response :=
  let* rows := select_where_username name in
  let* existing := scalar_one_or_none rows in
  match existing with
  | Some _ => raise (HTTPException 400 "Username already exists")
  | None =>
      run create_user name password in
      ret (RedirectResponse "/login" HTTP_303_SEE_OTHER)
  end.

Definition login_form (request : Request) : M Response :=
  ret (TemplateResponse "login.html" None None).

Definition login (name password : string) : M Response :=
  let* user := authenticate_user name password in
  match user with
  | None =>
      ret (HTMLResponse (Template "login.html" None (Some "Invalid credentials")) 401)
  | Some user =>
      let* session_id := token_urlsafe 32 in
      run r_setex ("session:" ++ session_id) (timedelta_days_seconds 1) (id user) in
      ret (set_session_cookie (RedirectResponse "/" HTTP_303_SEE_OTHER) session_id)
  end.

Definition logout (request : Request) : M Response :=
  let* _ :=
    match cookies request !! "session_id" with
    | None | Some EmptyString => ret tt
    | Some session_id => r_delete ("session:" ++ session_id)
    end in
  ret (delete_cookie (RedirectResponse "/" HTTP_303_SEE_OTHER) "session_id").

Definition protected (request : Request) : M Response :=
  let* user := get_current_user request in
  match user with
  | None => ret (RedirectResponse "/login" HTTP_303_SEE_OTHER)
  | Some user => ret (TemplateResponse "protected.html" (Some user) None)
  end.

(** ** The application: routing and the framework's exception handlers *)

Definition route (request : Request) : M Response :=
  match method request with
  | GET =>
      if String.eqb (path request) "/" then home request
      else if String.eqb (path request) "/register" then register_form request
      else if String.eqb (path request) "/login" then login_form request
      else if String.eqb (path request) "/logout" then logout request
      else if String.eqb (path request) "/protected" then protected request
      else raise (HTTPException 404 "Not Found")
  | POST =>
      if String.eqb (path request) "/register" then
        let* up := form_username_password (form request) in
        register (fst up) (snd up)
      else if String.eqb (path request) "/login" then
        let* up := form_username_password (form request) in
        login (fst up) (snd up)
      else if String.eqb (path request) "/" then
        raise (HTTPException 405 "Method Not Allowed")
      else if String.eqb (path request) "/logout" then
        raise (HTTPException 405 "Method Not Allowed")
      else if String.eqb (path request) "/protected" then
        raise (HTTPException 405 "Method Not Allowed")
      else raise (HTTPException 404 "Not Found")
  end.

(** An [HTTPException] becomes a response with its code, a validation
    error 422, and any other exception 500. *)
Definition exception_response (e : exn) : Response :=
  match e with
  | HTTPException code detail => mkResponse code None (Detail detail) []
  | RequestValidationError fields => mkResponse 422 None (MissingFields fields) []
  | _ => mkResponse 500 None (Text "Internal Server Error") []
  end.

Definition app (request : Request) (w : World) : Response * World :=
  match route request w with
  | (Ok response, w') => (response, w')
  | (Raise e, w') => (exception_response e, w')
  end.

(** ** Histories: requests interleaved with what the environment does *)

Inductive Event :=
| Http (request : Request)
| Tick (seconds : N)
| RedisDown
| RedisUp.

Definition step (e : Event) (w : World) : World :=
  match e with
  | Http request => snd (app request w)
  | Tick seconds => set_clock (clock w + Z.of_N seconds) w
  | RedisDown => set_redis_up false w
  | RedisUp => set_redis_up true w
  end.

Definition run_events (es : list Event) (w : World) : World :=
  fold_left (fun w e => step e w) es w.

End App.

(** ** Vocabulary of the statements *)

(** What the table's constraints guarantee: [id] is the primary key and
    [username] is unique. *)
Definition db_ok (l : list User) : Prop :=
  List.NoDup (map id l) /\ List.NoDup (map username l).

(** The request carries the cookie [session_id] with this value. *)
Definition has_session (request : Request) (session_id : string) : Prop :=
  cookies request !! "session_id" = Some session_id.

(** The events that only read sessions or let time pass. *)
Inductive reads_or_waits : Event -> Prop :=
| rw_home request :
    method request = GET -> path request = "/" ->
    reads_or_waits (Http request)
| rw_protected request :
    method request = GET -> path request = "/protected" ->
    reads_or_waits (Http request)
| rw_tick seconds : reads_or_waits (Tick seconds).

(** The record [user] is what a registration request of the history
    [es] submitted: its name, and the hasher's output on its password
    for a salt of 16 bytes. *)
Definition registered_by `{CryptContext} (es : list Event) (user : User) : Prop :=
  exists request password salt,
    In (Http request) es /\
    method request = POST /\ path request = "/register" /\
    Form (form request) "username" = Some (username user) /\
    Form (form request) "password" = Some password /\
    length salt = 16%nat /\
    hash_salted salt password = Some (password_hash user).

(** The next [n] bytes of the random source, and the token they encode. *)
Definition next_bytes (n : nat) (w : World) : list Z :=
  map (fun i => urandom w i mod 256) (seq (urandom_pos w) n).

Definition token_of_bytes (bs : list Z) : string :=
  string_of_list_ascii (rstrip "="%char (urlsafe_b64encode bs)).

(** What no handler touches: the clock, the random source and the
    reachability of the store; the read position only moves forward. *)
Definition same_environment (w w' : World) : Prop :=
  clock w' = clock w /\ urandom w' = urandom w /\ redis_up w' = redis_up w /\
  (urandom_pos w <= urandom_pos w')%nat.

(** The world after a login that issued [session_id] to [user]. *)
Definition logged_in (session_id : string) (user : User) (w : World) : World :=
  set_redis_keys
    (<["session:" ++ session_id := (str (id user), clock w + 86400)]> (redis_keys w))
    (set_urandom_pos (urandom_pos w + 32)%nat w).

(** A world and requests on which the statements are exercised. *)
Definition demo_alice : User :=
  Eval vm_compute in
    mkUser 1 "alice"
      (default "" (@hash_salted checksum_context (map Z.of_nat (seq 1 16)) "secret123")).

Definition demo_world : World :=
  mkWorld [demo_alice] true ∅ 1000 (fun n => Z.of_nat (n * 37 + 11)) 0.

Definition demo_session : string :=
  Eval vm_compute in token_of_bytes (next_bytes 32 demo_world).

Definition demo_empty_world : World := set_users [] demo_world.

Definition demo_bob : User :=
  Eval vm_compute in
    mkUser 1 "bob"
      (default ""
         (@hash_salted checksum_context (next_bytes 16 demo_empty_world) "hunter2")).

Definition demo_request (m : Method) (p : string)
    (c f : list (string * string)) : Request :=
  mkRequest m p (list_to_map c) (list_to_map f).

(** Every entry of the session store is one that a login wrote: its
    key is [session:<token>] and its value is the numeral of the id of
    a user of the table. *)
Definition sessions_ok (w : World) : Prop :=
  forall k v expiry,
    redis_keys w !! k = Some (v, expiry) ->
    exists session_id user,
      k = "session:" ++ session_id /\ In user (users w) /\ v = str (id user).

(** A world before any request: nobody registered, no session stored. *)
Definition fresh (w : World) : Prop := users w = [] /\ redis_keys w = ∅.

(** The session that the request's cookie names is in the store, not
    expired, and belongs to [user]. *)
Definition live_session (request : Request) (user : User) (w : World) : Prop :=
  exists session_id expiry,
    has_session request session_id /\ session_id <> "" /\
    redis_keys w !! ("session:" ++ session_id) = Some (str (id user), expiry) /\
    clock w < expiry.

(** A request without a usable session: no cookie, an empty one, a
    token that is not in the store, or one whose entry has expired. *)
Definition no_live_entry (request : Request) (w : World) : Prop :=
  match cookies request !! "session_id" with
  | None | Some EmptyString => True
  | Some session_id =>
      redis_up w = true /\
      match redis_keys w !! ("session:" ++ session_id) with
      | None => True
      | Some (_, expiry) => expiry <= clock w
      end
  end.

(** The example world after alice's login, and a request with her
    cookie. *)
Definition demo_logged_in : World := logged_in demo_session demo_alice demo_world.

Definition demo_read (p : string) : Request :=
  demo_request GET p [("session_id", demo_session)] [].

Definition demo_history : list Event :=
  [Http (demo_request POST "/register" []
           [("username", "bob"); ("password", "hunter2")]);
   Http (demo_request POST "/login" []
           [("username", "bob"); ("password", "hunter2")]);
   Tick 60].

(** A password with a NUL byte, which the example hasher refuses. *)
Definition demo_nul_password : string := String "000"%char "".

(** The example world with a session left behind by a user, number 7,
    who is not in the table. *)
Definition demo_orphan_world : World :=
  set_redis_keys (<["session:tok" := (str 7, 5000)]> ∅) demo_world.

(** Seven more logins of alice: with the first one they read 256
    bytes, after which the example source repeats. *)
Definition demo_seven_logins : list Event :=
  repeat
    (Http (demo_request POST "/login" []
             [("username", "alice"); ("password", "secret123")]))
    7.

(** A byte, and the list of all of them. *)
Definition is_byte (a : Z) : Prop := 0 <= a < 256.

Definition all_bytes : list Z := map Z.of_nat (seq 0 256).

(** ** Built-ins: numerals, tokens *)

Lemma int_str (n : Z) (w : World) : int (str n) w = (Ok n, w).
Proof.
  unfold int, str.
  rewrite NilZero.isi.
  - now rewrite DecimalZ.of_to.
  - destruct n; simpl; try discriminate.
    intros [= E]. now apply DecimalPos.Unsigned.to_uint_nonnil in E.
  - destruct n; simpl; try discriminate.
    intros [= E]. now apply DecimalPos.Unsigned.to_uint_nonnil in E.
Qed.

Lemma str_nonempty (n : Z) : str n <> "".
Proof.
  intros E. pose proof (int_str n (mkWorld [] true ∅ 0 (fun _ => 0) 0)) as H.
  rewrite E in H. discriminate H.
Qed.

Lemma b64_char_not_pad (i : Z) : b64_char i <> "="%char.
Proof.
  unfold b64_char.
  destruct (nth_in_or_default (Z.to_nat i) b64_alphabet "A"%char) as [H | ->];
    [| discriminate].
  revert H. generalize (nth (Z.to_nat i) b64_alphabet "A"%char). intros c H.
  unfold b64_alphabet in H. simpl in H.
  repeat (destruct H as [<- | H]; [discriminate |]). destruct H.
Qed.

Lemma rstrip_cons_ne (c x : ascii) (s : list ascii) :
  x <> c -> rstrip c (x :: s) <> [].
Proof.
  intros Hx. simpl. destruct (rstrip c s); [| discriminate].
  destruct (Ascii.eqb_spec x c); [contradiction | discriminate].
Qed.

Lemma urlsafe_b64encode_cons (a : Z) (bs : list Z) :
  exists t, urlsafe_b64encode (a :: bs) = b64_char (Z.shiftr a 2) :: t.
Proof. destruct bs as [| b [| c rest]]; simpl; eauto. Qed.

Lemma token_urlsafe_spec (n : nat) (w : World) :
  token_urlsafe n w =
    (Ok (string_of_list_ascii
           (rstrip "="%char
              (urlsafe_b64encode
                 (map (fun i => urandom w i mod 256) (seq (urandom_pos w) n))))),
     set_urandom_pos (urandom_pos w + n)%nat w).
Proof. reflexivity. Qed.

Lemma token_chars_nonempty (a : Z) (bs : list Z) :
  string_of_list_ascii (rstrip "="%char (urlsafe_b64encode (a :: bs))) <> "".
Proof.
  destruct (urlsafe_b64encode_cons a bs) as [t ->].
  pose proof (rstrip_cons_ne "="%char _ t (b64_char_not_pad (Z.shiftr a 2))) as H.
  destruct (rstrip _ _); [contradiction | discriminate].
Qed.

Lemma token_urlsafe_nonempty (n : nat) (w w' : World) (s : string) :
  token_urlsafe (S n) w = (Ok s, w') -> s <> "".
Proof.
  rewrite token_urlsafe_spec. intros [= <- _].
  apply (token_chars_nonempty (urandom w (urandom_pos w) mod 256)
           (map (fun i => urandom w i mod 256) (seq (S (urandom_pos w)) n))).
Qed.

(** ** The table: selecting by a unique column *)

Section UniqueColumn.

Variables (K : Type) (col : User -> K) (eqb : K -> K -> bool).
Hypothesis eqb_eq : forall a b, eqb a b = true <-> a = b.

Lemma select_absent (k : K) (l : list User) :
  (forall u, In u l -> col u <> k) ->
  List.filter (fun u => eqb (col u) k) l = [].
Proof.
  induction l as [| a l IH]; intros H; simpl; [reflexivity |].
  destruct (eqb (col a) k) eqn:E.
  - apply eqb_eq in E. exfalso. apply (H a); [now left | exact E].
  - apply IH. intros u Hu. apply H. now right.
Qed.

Lemma select_unique (u : User) (l : list User) :
  List.NoDup (map col l) -> In u l ->
  List.filter (fun x => eqb (col x) (col u)) l = [u].
Proof.
  induction l as [| a l IH]; intros Hnd Hin; [destruct Hin |].
  simpl in Hnd. apply List.NoDup_cons_iff in Hnd as [Hfresh Hnd].
  simpl. destruct Hin as [-> | Hin].
  - replace (eqb (col u) (col u)) with true by (symmetry; now apply eqb_eq).
    f_equal. apply select_absent. intros x Hx E.
    apply Hfresh. rewrite <- E. now apply in_map.
  - destruct (eqb (col a) (col u)) eqn:E.
    + apply eqb_eq in E. exfalso. apply Hfresh. rewrite E. now apply in_map.
    + now apply IH.
Qed.

End UniqueColumn.

Lemma select_username_unique (u : User) (w : World) :
  db_ok (users w) -> In u (users w) ->
  select_where_username (username u) w = (Ok [u], w).
Proof.
  intros [_ Hn] Hin. unfold select_where_username.
  now rewrite (select_unique _ username String.eqb String.eqb_eq u).
Qed.

Lemma select_username_absent (name : string) (w : World) :
  (forall u, In u (users w) -> username u <> name) ->
  select_where_username name w = (Ok [], w).
Proof.
  intros H. unfold select_where_username.
  now rewrite (select_absent _ username String.eqb String.eqb_eq name).
Qed.

Lemma select_id_unique (u : User) (w : World) :
  db_ok (users w) -> In u (users w) ->
  select_where_id (id u) w = (Ok [u], w).
Proof.
  intros [Hi _] Hin. unfold select_where_id.
  now rewrite (select_unique _ id Z.eqb Z.eqb_eq u).
Qed.

Lemma next_id_above (l : list User) (u : User) : In u l -> id u < next_id l.
Proof.
  unfold next_id. induction l as [| a l IH]; intros Hin; [destruct Hin |].
  simpl. destruct Hin as [-> | Hin]; [lia |].
  specialize (IH Hin). lia.
Qed.

Lemma existsb_username (name : string) (l : list User) :
  existsb (fun u => String.eqb (username u) name) l = false <->
  ~ In name (map username l).
Proof.
  induction l as [| a l IH]; simpl; [tauto |].
  rewrite orb_false_iff, IH.
  destruct (String.eqb_spec (username a) name); intuition congruence.
Qed.

(** An insert of a new name keeps both constraints. *)
Lemma db_ok_insert (l : list User) (name hashed : string) :
  db_ok l -> ~ In name (map username l) ->
  db_ok (l ++ [mkUser (next_id l) name hashed]).
Proof.
  intros [Hi Hn] Hf. unfold db_ok. rewrite !map_app. simpl. split.
  - apply List.NoDup_app; auto.
    + constructor; [intros [] | constructor].
    + intros x Hx [<- | []]. apply in_map_iff in Hx as (y & Hy & Hin).
      apply next_id_above in Hin. lia.
  - apply List.NoDup_app; auto.
    + constructor; [intros [] | constructor].
    + intros x Hx [<- | []]. contradiction.
Qed.

(** ** The monad *)

Lemma bind_ok {A B} (m : M A) (k : A -> M B) (w w' : World) (a : A) :
  m w = (Ok a, w') -> bind m k w = k a w'.
Proof. intros H. unfold bind. now rewrite H. Qed.

Lemma bind_raise {A B} (m : M A) (k : A -> M B) (w w' : World) (e : exn) :
  m w = (Raise e, w') -> bind m k w = (Raise e, w').
Proof. intros H. unfold bind. now rewrite H. Qed.

Lemma bind_inv {A B} (m : M A) (k : A -> M B) (w w2 : World) (r : result B) :
  bind m k w = (r, w2) ->
  (exists a w1, m w = (Ok a, w1) /\ k a w1 = (r, w2)) \/
  (exists e, m w = (Raise e, w2) /\ r = Raise e).
Proof.
  unfold bind. destruct (m w) as [[a | e] w1]; intros H.
  - left. eauto.
  - right. injection H as <- <-. eauto.
Qed.

(** ** Session reads *)

Section Sessions.

Context {pwd_context : CryptContext}.

(** Reading a session changes nothing: not the stores, not the clock. *)
Lemma get_current_user_frame (request : Request) (w w' : World)
    (r : result (option User)) :
  get_current_user request w = (r, w') -> w' = w.
Proof.
  unfold get_current_user.
  destruct (cookies request !! "session_id") as [[| c s] |];
    try (intros [= _ <-]; reflexivity).
  unfold bind, r_get. destruct (redis_up w); [| intros [= _ <-]; reflexivity].
  destruct (redis_keys w !! _) as [[v expiry] |];
    [destruct (clock w <? expiry)%Z |]; try (intros [= _ <-]; reflexivity).
  destruct v as [| c' v]; [intros [= _ <-]; reflexivity |].
  unfold int. destruct (NilZero.int_of_string _);
    [| intros [= _ <-]; reflexivity].
  unfold ret, select_where_id, scalar_one_or_none.
  destruct (List.filter _ _) as [| u [| u' l]]; intros [= _ <-]; reflexivity.
Qed.

(** A stored session resolves to its user until the second it expires. *)
Lemma get_current_user_stored (request : Request) (session_id : string)
    (user : User) (expiry : Z) (w : World) :
  has_session request session_id -> session_id <> "" ->
  redis_up w = true ->
  redis_keys w !! ("session:" ++ session_id) = Some (str (id user), expiry) ->
  db_ok (users w) -> In user (users w) ->
  get_current_user request w =
    (Ok (if (clock w <? expiry)%Z then Some user else None), w).
Proof.
  intros Hc Hne Hup Hkey Hdb Hin. unfold get_current_user.
  rewrite Hc. destruct session_id as [| c s]; [contradiction |].
  unfold bind at 1. unfold r_get. rewrite Hup, Hkey.
  destruct (clock w <? expiry)%Z; [| reflexivity].
  destruct (str (id user)) as [| c' v] eqn:E;
    [exfalso; now apply (str_nonempty (id user)) |].
  rewrite <- E. rewrite (bind_ok _ _ _ _ _ (int_str (id user) w)).
  rewrite (bind_ok _ _ _ _ _ (select_id_unique user w Hdb Hin)).
  reflexivity.
Qed.

(** A session that is not in the store resolves to nobody. *)
Lemma get_current_user_absent (request : Request) (session_id : string)
    (w : World) :
  has_session request session_id ->
  redis_up w = true ->
  redis_keys w !! ("session:" ++ session_id) = None ->
  get_current_user request w = (Ok None, w).
Proof.
  intros Hc Hup Hkey. unfold get_current_user.
  rewrite Hc. destruct session_id as [| c s]; [reflexivity |].
  unfold bind, r_get. now rewrite Hup, Hkey.
Qed.

Lemma authenticate_user_known (user : User) (password : string) (w : World) :
  db_ok (users w) -> In user (users w) ->
  authenticate_user (username user) password w =
    (match verify password (password_hash user) with
     | Some true => Ok (Some user)
     | Some false => Ok None
     | None => Raise ValueError
     end, w).
Proof.
  intros Hdb Hin. unfold authenticate_user.
  rewrite (bind_ok _ _ _ _ _ (select_username_unique user w Hdb Hin)).
  unfold bind, scalar_one_or_none, ret, pwd_context_verify.
  now destruct (verify password (password_hash user)) as [[|] |].
Qed.


(** A login with the right password on a reachable store. *)
Lemma login_ok (user : User) (password : string) (w : World) :
  db_ok (users w) -> In user (users w) ->
  verify password (password_hash user) = Some true ->
  redis_up w = true ->
  login (username user) password w =
    (Ok (set_session_cookie (RedirectResponse "/" HTTP_303_SEE_OTHER)
           (token_of_bytes (next_bytes 32 w))),
     logged_in (token_of_bytes (next_bytes 32 w)) user w).
Proof.
  intros Hdb Hin Hv Hup. unfold login.
  pose proof (authenticate_user_known user password w Hdb Hin) as A.
  rewrite Hv in A. rewrite (bind_ok _ _ _ _ _ A).
  rewrite (bind_ok _ _ _ _ _ (token_urlsafe_spec 32 w)).
  unfold bind, r_setex. simpl redis_up. rewrite Hup. reflexivity.
Qed.

End Sessions.

(** ** Login, session resolution and logout *)

Section Lifecycle.

Context {pwd_context : CryptContext}.

Lemma issued_token_nonempty (w : World) : token_of_bytes (next_bytes 32 w) <> "".
Proof.
  apply (token_urlsafe_nonempty 31 w (set_urandom_pos (urandom_pos w + 32)%nat w)).
  apply token_urlsafe_spec.
Qed.

Lemma logged_in_lookup (session_id : string) (user : User) (w : World) :
  redis_keys (logged_in session_id user w) !! ("session:" ++ session_id) =
    Some (str (id user), clock w + 86400).
Proof. unfold logged_in. simpl. apply lookup_insert_eq. Qed.

(** C1. Session lifecycle round-trip: a login with a user's correct
    credentials succeeds and returns a session token to the client, as
    the value of the [session_id] cookie of its response (the redirect
    to [/]); every request carrying that token then resolves to that
    user's record; and after [logout] with the token (which revokes the
    session by deleting its key), the token resolves to nobody. *)
Theorem session_lifecycle (user : User) (password : string) (w : World) :
  db_ok (users w) -> In user (users w) ->
  verify password (password_hash user) = Some true ->
  redis_up w = true ->
  exists session_id w1 w2,
    login (username user) password w =
      (Ok (mkResponse 303 (Some "/") NoBody
             [mkCookie "session_id" session_id true false "lax" 86400]), w1) /\
    session_id <> "" /\
    r_delete ("session:" ++ session_id) w1 = (Ok tt, w2) /\
    forall request, has_session request session_id ->
      get_current_user request w1 = (Ok (Some user), w1) /\
      logout request w1 =
        (Ok (mkResponse 303 (Some "/") NoBody
               [mkCookie "session_id" "" false false "lax" 0]), w2) /\
      get_current_user request w2 = (Ok None, w2).
Proof.
  intros Hdb Hin Hv Hup.
  set (sid := token_of_bytes (next_bytes 32 w)).
  set (w1 := logged_in sid user w).
  exists sid, w1,
    (set_redis_keys (delete ("session:" ++ sid) (redis_keys w1)) w1).
  assert (Hne : sid <> "") by apply issued_token_nonempty.
  assert (Hdel : r_delete ("session:" ++ sid) w1 =
            (Ok tt, set_redis_keys (delete ("session:" ++ sid) (redis_keys w1)) w1)).
  { unfold r_delete. simpl redis_up. now rewrite Hup. }
  split; [exact (login_ok user password w Hdb Hin Hv Hup) |].
  split; [exact Hne |]. split; [exact Hdel |].
  intros request Hc. repeat split.
  - rewrite (get_current_user_stored request sid user (clock w + 86400) w1
               Hc Hne Hup (logged_in_lookup sid user w) Hdb Hin).
    simpl clock. now replace (clock w <? clock w + 86400)%Z with true
      by (symmetry; apply Z.ltb_lt; lia).
  - unfold logout. rewrite Hc. destruct sid as [| c s]; [contradiction |].
    now rewrite (bind_ok _ _ _ _ _ Hdel).
  - apply (get_current_user_absent request sid); [exact Hc | exact Hup |].
    simpl. apply lookup_delete_eq.
Qed.

End Lifecycle.

Lemma demo_db_ok : db_ok (users demo_world).
Proof.
  split; simpl; (constructor; [intros [] | constructor]).
Qed.

Lemma session_lifecycle_witness :
  exists session_id w1 w2,
    login (pwd_context := checksum_context) "alice" "secret123" demo_world =
      (Ok (mkResponse 303 (Some "/") NoBody
             [mkCookie "session_id" session_id true false "lax" 86400]), w1) /\
    session_id <> "" /\
    r_delete ("session:" ++ session_id) w1 = (Ok tt, w2) /\
    forall request, has_session request session_id ->
      get_current_user request w1 = (Ok (Some demo_alice), w1) /\
      logout request w1 =
        (Ok (mkResponse 303 (Some "/") NoBody
               [mkCookie "session_id" "" false false "lax" 0]), w2) /\
      get_current_user request w2 = (Ok None, w2).
Proof.
  apply (session_lifecycle (pwd_context := checksum_context)
           demo_alice "secret123" demo_world).
  - exact demo_db_ok.
  - simpl. left. reflexivity.
  - vm_compute. reflexivity.
  - reflexivity.
Defined.

(** ** Routing of the two POST handlers *)

Section Routing.

Context {pwd_context : CryptContext}.

Lemma route_post_register (request : Request) :
  method request = POST -> path request = "/register" ->
  route request =
    (let* up := form_username_password (form request) in
     register (fst up) (snd up)).
Proof. intros Hm Hp. unfold route. now rewrite Hm, Hp. Qed.

Lemma route_post_login (request : Request) :
  method request = POST -> path request = "/login" ->
  route request =
    (let* up := form_username_password (form request) in
     login (fst up) (snd up)).
Proof. intros Hm Hp. unfold route. now rewrite Hm, Hp. Qed.

Lemma form_username_password_ok (fields : gmap string string)
    (name password : string) (w : World) :
  Form fields "username" = Some name ->
  Form fields "password" = Some password ->
  form_username_password fields w = (Ok (name, password), w).
Proof. intros Hu Hp. unfold form_username_password. now rewrite Hu, Hp. Qed.

Lemma Form_None (fields : gmap string string) (name : string) :
  fields !! name = None \/ fields !! name = Some "" ->
  Form fields name = None.
Proof. unfold Form. now intros [-> | ->]. Qed.

Lemma form_username_password_missing (fields : gmap string string) (w : World) :
  Form fields "username" = None \/ Form fields "password" = None ->
  exists missing_fields,
    missing_fields <> [] /\
    form_username_password fields w =
      (Raise (RequestValidationError missing_fields), w).
Proof.
  unfold form_username_password.
  destruct (Form fields "username") as [u |], (Form fields "password") as [p |];
    intros [H | H]; try discriminate H; eexists; (split; [| reflexivity]);
    discriminate.
Qed.

End Routing.

(** ** Failed logins *)

Section FailedLogin.

Context {pwd_context : CryptContext}.


End FailedLogin.



(** ** Registration *)

Section Registration.

Context {pwd_context : CryptContext}.

(** C5. Registering a username that already exists fails with the
    HTTP exception 400 "Username already exists", whatever the password,
    and leaves the world, hence the first user's record, as it was. *)
Theorem register_duplicate_username (existing : User) (password : string)
    (w : World) :
  db_ok (users w) -> In existing (users w) ->
  register (username existing) password w =
    (Raise (HTTPException 400 "Username already exists"), w) /\
  forall request,
    method request = POST -> path request = "/register" ->
    Form (form request) "username" = Some (username existing) ->
    Form (form request) "password" = Some password ->
    app request w =
      (mkResponse 400 None (Detail "Username already exists") [], w).
Proof.
  intros Hdb Hin.
  assert (H : register (username existing) password w =
                (Raise (HTTPException 400 "Username already exists"), w)).
  { unfold register.
    now rewrite (bind_ok _ _ _ _ _ (select_username_unique existing w Hdb Hin)). }
  split; [exact H |].
  intros request Hm Hp Hu Hpw. unfold app.
  rewrite (route_post_register request Hm Hp).
  rewrite (bind_ok _ _ _ _ _ (form_username_password_ok _ _ _ w Hu Hpw)).
  simpl fst. simpl snd. now rewrite H.
Qed.

(** C6. A registration request whose username or password is missing
    or empty fails with a validation error (422) that names the missing
    fields, and creates no user record: the world is as it was. *)
Theorem register_requires_both_fields (request : Request) (w : World) :
  method request = POST -> path request = "/register" ->
  form request !! "username" = None \/ form request !! "username" = Some "" \/
  form request !! "password" = None \/ form request !! "password" = Some "" ->
  exists missing_fields,
    missing_fields <> [] /\
    route request w = (Raise (RequestValidationError missing_fields), w) /\
    app request w = (mkResponse 422 None (MissingFields missing_fields) [], w).
Proof.
  intros Hm Hp H.
  destruct (form_username_password_missing (form request) w) as (mf & Hne & E).
  { destruct H as [H | [H | [H | H]]];
      [left | left | right | right]; apply Form_None; auto. }
  exists mf. split; [exact Hne |].
  assert (R : route request w = (Raise (RequestValidationError mf), w)).
  { rewrite (route_post_register request Hm Hp). now apply bind_raise. }
  split; [exact R |]. unfold app. now rewrite R.
Qed.

(** C7. A successful registration does not authenticate: its response
    is the 303 redirect to [/login] with no [Set-Cookie] header, and the
    session store is as it was. *)
Theorem register_does_not_authenticate (name password : string)
    (w w' : World) (response : Response) :
  register name password w = (Ok response, w') ->
  response = mkResponse 303 (Some "/login") NoBody [] /\
  redis_keys w' = redis_keys w /\ redis_up w' = redis_up w.
Proof.
  unfold register, bind, select_where_username, scalar_one_or_none.
  destruct (List.filter _ _) as [| u [| u' l]]; simpl; try discriminate.
  unfold create_user, pwd_context_hash, bind, os_urandom, ret, raise,
    db_add_commit_refresh. simpl.
  destruct (hash_salted _ _); [| discriminate].
  destruct (existsb _ _); [discriminate |].
  intros [= <- <-]. repeat split.
Qed.

End Registration.

Lemma register_duplicate_username_witness :
  register (pwd_context := checksum_context) "alice" "other" demo_world =
    (Raise (HTTPException 400 "Username already exists"), demo_world) /\
  forall request,
    method request = POST -> path request = "/register" ->
    Form (form request) "username" = Some "alice" ->
    Form (form request) "password" = Some "other" ->
    app (pwd_context := checksum_context) request demo_world =
      (mkResponse 400 None (Detail "Username already exists") [], demo_world).
Proof.
  apply (register_duplicate_username (pwd_context := checksum_context)
           demo_alice "other" demo_world demo_db_ok).
  simpl. left. reflexivity.
Defined.

Lemma register_requires_both_fields_witness :
  exists missing_fields,
    missing_fields <> [] /\
    route (pwd_context := checksum_context)
      (demo_request POST "/register" [] [("username", "bob"); ("password", "")])
      demo_world =
      (Raise (RequestValidationError missing_fields), demo_world) /\
    app (pwd_context := checksum_context)
      (demo_request POST "/register" [] [("username", "bob"); ("password", "")])
      demo_world =
      (mkResponse 422 None (MissingFields missing_fields) [], demo_world).
Proof.
  apply (register_requires_both_fields (pwd_context := checksum_context)
           (demo_request POST "/register" [] [("username", "bob"); ("password", "")])
           demo_world).
  - reflexivity.
  - reflexivity.
  - right. right. right. vm_compute. reflexivity.
Defined.

Lemma register_does_not_authenticate_witness :
  exists response w',
    register (pwd_context := checksum_context) "bob" "hunter2" demo_world =
      (Ok response, w') /\
    response = mkResponse 303 (Some "/login") NoBody [] /\
    redis_keys w' = redis_keys demo_world /\ redis_up w' = redis_up demo_world.
Proof.
  eexists. eexists. split.
  - vm_compute. reflexivity.
  - apply (register_does_not_authenticate (pwd_context := checksum_context)
             "bob" "hunter2" demo_world).
    vm_compute. reflexivity.
Defined.

(** ** An unreachable session store *)

Section Unreachable.

Context {pwd_context : CryptContext}.

(** C4, as the code has it.  With the session store unreachable, a
    request that carries a non-empty [session_id] cookie does not proceed
    as unauthenticated: the read raises the client's connection error and
    the request ends as a server error (500); it is never resolved to a
    user.  A request without the cookie proceeds as unauthenticated.  A
    login with correct credentials fails with the connection error (500),
    with no [Set-Cookie] header and the session store as it was. *)
Theorem session_store_unreachable (w : World) :
  redis_up w = false ->
  (forall request,
     get_current_user request w =
       match cookies request !! "session_id" with
       | None | Some EmptyString => (Ok None, w)
       | Some _ => (Raise ConnectionError, w)
       end) /\
  (forall request,
     method request = GET -> path request = "/protected" ->
     app request w =
       match cookies request !! "session_id" with
       | None | Some EmptyString =>
           (mkResponse 303 (Some "/login") NoBody [], w)
       | Some _ =>
           (mkResponse 500 None (Text "Internal Server Error") [], w)
       end) /\
  (forall user password,
     db_ok (users w) -> In user (users w) ->
     verify password (password_hash user) = Some true ->
     exists w',
       login (username user) password w = (Raise ConnectionError, w') /\
       redis_keys w' = redis_keys w /\
       forall request,
         method request = POST -> path request = "/login" ->
         Form (form request) "username" = Some (username user) ->
         Form (form request) "password" = Some password ->
         app request w =
           (mkResponse 500 None (Text "Internal Server Error") [], w')).
Proof.
  intros Hdown.
  assert (G : forall request,
     get_current_user request w =
       match cookies request !! "session_id" with
       | None | Some EmptyString => (Ok None, w)
       | Some _ => (Raise ConnectionError, w)
       end).
  { intros request. unfold get_current_user.
    destruct (cookies request !! "session_id") as [[| c s] |]; try reflexivity.
    unfold bind, r_get. now rewrite Hdown. }
  split; [exact G |]. split.
  - intros request Hm Hp. unfold app, route. rewrite Hm, Hp. simpl.
    unfold protected, bind. rewrite G.
    now destruct (cookies request !! "session_id") as [[| c s] |].
  - intros user password Hdb Hin Hv.
    exists (set_urandom_pos (urandom_pos w + 32)%nat w).
    assert (L : login (username user) password w =
              (Raise ConnectionError, set_urandom_pos (urandom_pos w + 32)%nat w)).
    { unfold login.
      pose proof (authenticate_user_known user password w Hdb Hin) as A.
      rewrite Hv in A. rewrite (bind_ok _ _ _ _ _ A).
      rewrite (bind_ok _ _ _ _ _ (token_urlsafe_spec 32 w)).
      unfold bind, r_setex. simpl redis_up. now rewrite Hdown. }
    split; [exact L |]. split; [reflexivity |].
    intros request Hm Hp Hu Hpw. unfold app.
    rewrite (route_post_login request Hm Hp).
    rewrite (bind_ok _ _ _ _ _ (form_username_password_ok _ _ _ w Hu Hpw)).
    simpl fst. simpl snd. now rewrite L.
Qed.

End Unreachable.

(** C4, as stated, fails: with the store unreachable, a request to
    [/protected] that carries a session cookie ends as a server error,
    not as an unauthenticated request. *)
Lemma session_read_unreachable_server_error :
  get_current_user (demo_request GET "/protected" [("session_id", "abc")] [])
    (set_redis_up false demo_world) =
    (Raise ConnectionError, set_redis_up false demo_world) /\
  fst (app (pwd_context := checksum_context)
         (demo_request GET "/protected" [("session_id", "abc")] [])
         (set_redis_up false demo_world)) =
    mkResponse 500 None (Text "Internal Server Error") [].
Proof. split; reflexivity. Qed.

Lemma session_store_unreachable_witness :
  exists w',
    login (pwd_context := checksum_context) "alice" "secret123"
      (set_redis_up false demo_world) = (Raise ConnectionError, w') /\
    redis_keys w' = redis_keys demo_world.
Proof.
  destruct (session_store_unreachable (pwd_context := checksum_context)
              (set_redis_up false demo_world) eq_refl) as (_ & _ & H).
  destruct (H demo_alice "secret123" demo_db_ok (or_introl eq_refl) eq_refl)
    as (w' & L & K & _).
  exists w'. split; [exact L | exact K].
Defined.

(** ** What each handler may change *)

Section Effects.

Context {pwd_context : CryptContext}.

Lemma same_environment_refl (w : World) : same_environment w w.
Proof. unfold same_environment. auto. Qed.

Lemma authenticate_user_frame (name password : string) (w w' : World)
    (r : result (option User)) :
  authenticate_user name password w = (r, w') -> w' = w.
Proof.
  unfold authenticate_user, bind, select_where_username, scalar_one_or_none,
    ret, raise, pwd_context_verify.
  destruct (List.filter _ _) as [| u [| u' l]];
    try destruct (verify _ _) as [[|] |]; intros [= _ <-]; reflexivity.
Qed.

Lemma login_effect (name password : string) (w w' : World)
    (r : result Response) :
  login name password w = (r, w') ->
  users w' = users w /\ same_environment w w'.
Proof.
  unfold login. intros H.
  apply bind_inv in H as [(o & w1 & A & H) | (e & A & _)];
    apply authenticate_user_frame in A; subst;
    [| auto using same_environment_refl].
  destruct o as [user |];
    [| injection H as _ <-; auto using same_environment_refl].
  rewrite (bind_ok _ _ _ _ _ (token_urlsafe_spec 32 w)) in H.
  unfold bind, r_setex, ret in H. simpl redis_up in H.
  destruct (redis_up w); injection H as _ <-;
    unfold same_environment; simpl; repeat split; lia.
Qed.

Lemma logout_effect (request : Request) (w w' : World) (r : result Response) :
  logout request w = (r, w') ->
  users w' = users w /\ same_environment w w'.
Proof.
  assert (D : forall (u : result unit) w1,
            match cookies request !! "session_id" with
            | None | Some EmptyString => ret tt
            | Some session_id => r_delete ("session:" ++ session_id)
            end w = (u, w1) ->
            users w1 = users w /\ same_environment w w1).
  { intros u w1.
    destruct (cookies request !! "session_id") as [[| c s] |];
      try (intros [= _ <-]; auto using same_environment_refl).
    unfold r_delete. destruct (redis_up w) eqn:Hup; intros [= _ <-];
      unfold same_environment; simpl; auto. }
  unfold logout. intros H.
  apply bind_inv in H as [(u & w1 & E & H) | (e & E & _)].
  - injection H as _ <-. eauto.
  - eauto.
Qed.

(** A registration either leaves the table as it was or appends one
    record: the next id, the submitted name, and the hasher's output on
    the submitted password with the next 16 random bytes as salt. *)
Lemma register_effect (name password : string) (w w' : World)
    (r : result Response) :
  register name password w = (r, w') ->
  same_environment w w' /\ redis_keys w' = redis_keys w /\
  (users w' = users w \/
   exists hashed,
     hash_salted (next_bytes 16 w) password = Some hashed /\
     ~ In name (map username (users w)) /\
     users w' = (users w ++ [mkUser (next_id (users w)) name hashed])%list).
Proof.
  unfold register, bind, select_where_username, scalar_one_or_none, ret, raise.
  destruct (List.filter _ _) as [| u [| u' l]];
    try (intros [= _ <-]; auto using same_environment_refl).
  unfold create_user, pwd_context_hash, bind, os_urandom, ret, raise,
    db_add_commit_refresh.
  fold (next_bytes 16 w).
  destruct (hash_salted (next_bytes 16 w) password) as [hashed |] eqn:Hh;
    [| intros [= _ <-]; unfold same_environment; simpl; repeat split; auto; lia].
  simpl users. destruct (existsb _ _) eqn:E; intros [= _ <-];
    unfold same_environment; simpl; repeat split; auto; try lia.
  right. exists hashed. split; [reflexivity |].
  split; [now apply existsb_username | reflexivity].
Qed.

Lemma route_effect (request : Request) (w w' : World) (r : result Response) :
  route request w = (r, w') ->
  same_environment w w' /\
  (users w' = users w \/
   exists name password,
     method request = POST /\ path request = "/register" /\
     Form (form request) "username" = Some name /\
     Form (form request) "password" = Some password /\
     exists hashed,
       hash_salted (next_bytes 16 w) password = Some hashed /\
       ~ In name (map username (users w)) /\
       users w' = (users w ++ [mkUser (next_id (users w)) name hashed])%list).
Proof.
  unfold route. destruct (method request) eqn:Hm.
  - destruct (String.eqb_spec (path request) "/");
      [| destruct (String.eqb_spec (path request) "/register");
         [| destruct (String.eqb_spec (path request) "/login");
            [| destruct (String.eqb_spec (path request) "/logout");
               [| destruct (String.eqb_spec (path request) "/protected")]]]].
    + unfold home, bind. destruct (get_current_user request w) as [[o | x] w1] eqn:E;
        apply get_current_user_frame in E; subst w1; intros [= _ <-];
        auto using same_environment_refl.
    + intros [= _ <-]. auto using same_environment_refl.
    + intros [= _ <-]. auto using same_environment_refl.
    + intros H. apply logout_effect in H as [-> ?]. auto.
    + unfold protected, bind.
      destruct (get_current_user request w) as [[[u |] | x] w1] eqn:E;
        apply get_current_user_frame in E; subst w1; intros [= _ <-];
        auto using same_environment_refl.
    + intros [= _ <-]. auto using same_environment_refl.
  - destruct (String.eqb_spec (path request) "/register") as [Hp |];
      [| destruct (String.eqb_spec (path request) "/login")].
    + intros H. apply bind_inv in H as [((name, password) & w1 & F & H) | (x & F & _)].
      * unfold form_username_password in F.
        destruct (Form (form request) "username") as [u |] eqn:Fu;
          destruct (Form (form request) "password") as [p |] eqn:Fp;
          try discriminate F.
        injection F as <- <- <-. simpl in H.
        apply register_effect in H as (He & _ & [Hu | (h & Hh & Hf & Hu)]);
          [auto |].
        split; [exact He |]. right. exists u, p. eauto 10.
      * unfold form_username_password in F.
        destruct (Form (form request) "username"), (Form (form request) "password");
          injection F as _ <-; auto using same_environment_refl.
    + intros H. apply bind_inv in H as [((name, password) & w1 & F & H) | (x & F & _)].
      * unfold form_username_password in F.
        destruct (Form (form request) "username"), (Form (form request) "password");
          try discriminate F.
        injection F as _ _ <-. apply login_effect in H as [-> ?]. auto.
      * unfold form_username_password in F.
        destruct (Form (form request) "username"), (Form (form request) "password");
          injection F as _ <-; auto using same_environment_refl.
    + destruct (String.eqb (path request) "/"), (String.eqb (path request) "/logout"),
        (String.eqb (path request) "/protected");
        intros [= _ <-]; auto using same_environment_refl.
Qed.

End Effects.

(** ** Histories *)

Section Histories.

Context {pwd_context : CryptContext}.

Lemma run_events_cons (e : Event) (es : list Event) (w : World) :
  run_events (e :: es) w = run_events es (step e w).
Proof. reflexivity. Qed.

Lemma app_route (request : Request) (w : World) :
  snd (app request w) = snd (route request w).
Proof. unfold app. now destruct (route request w) as [[r | e] w']. Qed.

(** The two pages that read the session leave the world as it was. *)
Lemma app_read_frame (request : Request) (w : World) :
  method request = GET -> path request = "/" \/ path request = "/protected" ->
  snd (app request w) = w.
Proof.
  intros Hm Hp. rewrite app_route. unfold route. rewrite Hm.
  destruct Hp as [-> | ->]; simpl.
  - unfold home, bind.
    destruct (get_current_user request w) as [[o | x] w1] eqn:E;
      apply get_current_user_frame in E; now subst.
  - unfold protected, bind.
    destruct (get_current_user request w) as [[[u |] | x] w1] eqn:E;
      apply get_current_user_frame in E; now subst.
Qed.

Lemma step_reads_or_waits (e : Event) (w : World) :
  reads_or_waits e ->
  users (step e w) = users w /\ redis_up (step e w) = redis_up w /\
  redis_keys (step e w) = redis_keys w.
Proof.
  intros [request Hm Hp | request Hm Hp | seconds]; simpl.
  - rewrite app_read_frame; auto.
  - rewrite app_read_frame; auto.
  - auto.
Qed.

Lemma run_reads_or_waits (es : list Event) (w : World) :
  Forall reads_or_waits es ->
  users (run_events es w) = users w /\
  redis_up (run_events es w) = redis_up w /\
  redis_keys (run_events es w) = redis_keys w.
Proof.
  intros H. revert w. induction H as [| e es He _ IH]; intros w; [auto |].
  rewrite run_events_cons.
  destruct (IH (step e w)) as (-> & -> & ->).
  now apply step_reads_or_waits.
Qed.

Lemma step_environment (e : Event) (w : World) :
  urandom (step e w) = urandom w /\
  (urandom_pos w <= urandom_pos (step e w))%nat.
Proof.
  destruct e as [request | seconds | |]; simpl; auto.
  rewrite app_route. destruct (route request w) as [r w'] eqn:E.
  apply route_effect in E as [(_ & Hu & _ & Hp) _]. auto.
Qed.

Lemma run_events_environment (es : list Event) (w : World) :
  urandom (run_events es w) = urandom w /\
  (urandom_pos w <= urandom_pos (run_events es w))%nat.
Proof.
  revert w. induction es as [| e es IH]; intros w; [auto |].
  rewrite run_events_cons.
  destruct (IH (step e w)) as [-> Hp], (step_environment e w) as [-> Hq].
  split; [reflexivity | lia].
Qed.

(** Every history keeps the constraints of the table. *)
Lemma step_db_ok (e : Event) (w : World) :
  db_ok (users w) -> db_ok (users (step e w)).
Proof.
  intros Hdb. destruct e as [request | seconds | |]; simpl; auto.
  rewrite app_route. destruct (route request w) as [r w'] eqn:E.
  simpl snd.
  apply route_effect in E
    as [_ [-> | (name & password & _ & _ & _ & _ & h & _ & Hf & ->)]];
    [exact Hdb | now apply db_ok_insert].
Qed.

Lemma run_events_db_ok (es : list Event) (w : World) :
  db_ok (users w) -> db_ok (users (run_events es w)).
Proof.
  revert w. induction es as [| e es IH]; intros w H; [exact H |].
  rewrite run_events_cons. apply IH. now apply step_db_ok.
Qed.

End Histories.

(** ** Expiry, tokens and stored passwords *)

Section Expiry.

Context {pwd_context : CryptContext}.

(** C8. No sliding expiration: after a login at time [clock w], however
    many times the session is read by the pages that resolve it, with any
    amount of time passing in between, its entry in the store keeps the
    expiry [clock w + 86400], and the session resolves to its user
    exactly while the clock is before that second. *)
Theorem no_sliding_expiration (user : User) (password : string) (w : World) :
  db_ok (users w) -> In user (users w) ->
  verify password (password_hash user) = Some true ->
  redis_up w = true ->
  exists session_id w1,
    login (username user) password w =
      (Ok (set_session_cookie (RedirectResponse "/" 303) session_id), w1) /\
    forall es, Forall reads_or_waits es ->
      redis_keys (run_events es w1) !! ("session:" ++ session_id) =
        Some (str (id user), clock w + 86400) /\
      forall request, has_session request session_id ->
        get_current_user request (run_events es w1) =
          (Ok (if (clock (run_events es w1) <? clock w + 86400)%Z
               then Some user else None),
           run_events es w1).
Proof.
  intros Hdb Hin Hv Hup.
  set (sid := token_of_bytes (next_bytes 32 w)).
  exists sid, (logged_in sid user w).
  split; [now apply login_ok |].
  intros es Hes.
  destruct (run_reads_or_waits es (logged_in sid user w) Hes) as (Hu & Hr & Hk).
  assert (K : redis_keys (run_events es (logged_in sid user w))
                !! ("session:" ++ sid) = Some (str (id user), clock w + 86400)).
  { rewrite Hk. apply logged_in_lookup. }
  split; [exact K |].
  intros request Hc.
  apply (get_current_user_stored request sid user); auto.
  - apply issued_token_nonempty.
  - now rewrite Hr.
  - now rewrite Hu.
  - now rewrite Hu.
Qed.

(** Each record of the table is what a registration of the history
    submitted, or was there before. *)
Lemma run_events_registered (es done : list Event) (w : World) :
  (forall u, In u (users w) -> registered_by done u) ->
  forall u, In u (users (run_events es w)) -> registered_by (done ++ es) u.
Proof.
  revert done w. induction es as [| e es IH]; intros done w H u Hin.
  - rewrite app_nil_r. now apply H.
  - rewrite run_events_cons in Hin.
    replace (done ++ e :: es)%list with ((done ++ [e]) ++ es)%list
      by now rewrite <- app_assoc.
    apply (IH (done ++ [e])%list (step e w)); [| exact Hin].
    clear u Hin. intros u Hin.
    assert (Hold : In u (users w) -> registered_by (done ++ [e]) u).
    { intros Hu. destruct (H u Hu) as (rq & p & salt & Hev & Hrest).
      exists rq, p, salt. split; [apply in_or_app; now left | exact Hrest]. }
    destruct e as [request | seconds | |]; simpl in Hin; auto.
    rewrite app_route in Hin. destruct (route request w) as [r w'] eqn:E.
    simpl snd in Hin.
    apply route_effect in E
      as [_ [Hu | (name & password & Hm & Hp & Fu & Fp & h & Hh & _ & Hu)]];
      rewrite Hu in Hin; [auto |].
    apply in_app_or in Hin as [Hin | [<- | []]]; [auto |].
    exists request, password, (next_bytes 16 w). simpl.
    repeat split; auto using in_or_app, in_eq.
Qed.

(** C10. Plaintext passwords are never persisted: starting from an
    empty table, after any history every record of the table has the
    name that a registration request of the history submitted and, as
    its [password_hash], the hasher's output on the password which that
    request submitted, salted with 16 bytes; a record has no other
    field than these and its id. *)
Theorem passwords_stored_hashed (es : list Event) (w : World) (user : User) :
  users w = [] -> In user (users (run_events es w)) ->
  registered_by es user.
Proof.
  intros Hw Hin.
  apply (run_events_registered es [] w); [| exact Hin].
  rewrite Hw. intros u [].
Qed.

End Expiry.

Lemma no_sliding_expiration_witness :
  exists session_id w1,
    login (pwd_context := checksum_context) "alice" "secret123" demo_world =
      (Ok (set_session_cookie (RedirectResponse "/" 303) session_id), w1) /\
    forall es, Forall reads_or_waits es ->
      redis_keys (run_events (pwd_context := checksum_context) es w1)
        !! ("session:" ++ session_id) =
        Some (str 1, 1000 + 86400) /\
      forall request, has_session request session_id ->
        get_current_user request (run_events (pwd_context := checksum_context) es w1) =
          (Ok (if (clock (run_events (pwd_context := checksum_context) es w1) <? 1000 + 86400)%Z
               then Some demo_alice else None),
           run_events (pwd_context := checksum_context) es w1).
Proof.
  apply (no_sliding_expiration (pwd_context := checksum_context)
           demo_alice "secret123" demo_world).
  - exact demo_db_ok.
  - simpl. left. reflexivity.
  - vm_compute. reflexivity.
  - reflexivity.
Defined.

(** The session of the example is created at second 1000: it resolves
    at second 87399 and no longer at second 87401, reads in between or
    not. *)
Example session_expiry_boundary :
  let read := demo_request GET "/protected" [("session_id", demo_session)] [] in
  let w1 := snd (login (pwd_context := checksum_context) "alice" "secret123" demo_world) in
  fst (get_current_user read
         (run_events (pwd_context := checksum_context)
            [Tick 86399] w1)) = Ok (Some demo_alice) /\
  fst (get_current_user read
         (run_events (pwd_context := checksum_context)
            [Tick 86399; Http read; Tick 2] w1)) = Ok None.
Proof. split; vm_compute; reflexivity. Qed.

Lemma passwords_stored_hashed_witness :
  registered_by (H := checksum_context)
    [Http (demo_request POST "/register" []
             [("username", "bob"); ("password", "hunter2")])]
    demo_bob.
Proof.
  apply (passwords_stored_hashed (pwd_context := checksum_context)
           [Http (demo_request POST "/register" []
                    [("username", "bob"); ("password", "hunter2")])]
           demo_empty_world demo_bob).
  - reflexivity.
  - vm_compute. left. reflexivity.
Defined.

(** ** Registration followed by login, for a hasher that verifies its
    own output *)

Section RoundTrip.

Context {pwd_context : CryptContext}.
Hypothesis verify_hash :
  forall salt password hashed,
    hash_salted salt password = Some hashed ->
    verify password hashed = Some true.

Lemma register_ok (name password hashed : string) (w : World) :
  ~ In name (map username (users w)) ->
  hash_salted (next_bytes 16 w) password = Some hashed ->
  register name password w =
    (Ok (RedirectResponse "/login" 303),
     set_users (users w ++ [mkUser (next_id (users w)) name hashed])%list
       (set_urandom_pos (urandom_pos w + 16)%nat w)).
Proof.
  intros Hf Hh.
  assert (Ha : forall u, In u (users w) -> username u <> name).
  { intros u Hu E. apply Hf. rewrite <- E. now apply in_map. }
  unfold register.
  rewrite (bind_ok _ _ _ _ _ (select_username_absent name w Ha)).
  unfold bind, scalar_one_or_none, ret, create_user, pwd_context_hash, bind,
    os_urandom, ret, db_add_commit_refresh.
  fold (next_bytes 16 w). rewrite Hh.
  simpl users. apply existsb_username in Hf. now rewrite Hf.
Qed.

(** X15. Registration and login compose: with a hasher that verifies
    its own output, on a table that satisfies its constraints and with
    the store reachable, a registration under a free name with a
    password that the hasher accepts succeeds with the redirect to
    [/login]; a login with the same name and password right after it
    answers with the redirect to [/] and a [session_id] cookie, and a
    request carrying that cookie's token resolves to the record just
    registered. *)
Theorem register_then_login (name password hashed : string) (w : World) :
  db_ok (users w) -> ~ In name (map username (users w)) ->
  redis_up w = true ->
  hash_salted (next_bytes 16 w) password = Some hashed ->
  exists w1 session_id w2,
    register name password w =
      (Ok (mkResponse 303 (Some "/login") NoBody []), w1) /\
    login name password w1 =
      (Ok (mkResponse 303 (Some "/") NoBody
             [mkCookie "session_id" session_id true false "lax" 86400]), w2) /\
    session_id <> "" /\
    forall request, has_session request session_id ->
      get_current_user request w2 =
        (Ok (Some (mkUser (next_id (users w)) name hashed)), w2).
Proof.
  intros Hdb Hf Hup Hh.
  set (u := mkUser (next_id (users w)) name hashed).
  set (w1 := set_users (users w ++ [u])%list
               (set_urandom_pos (urandom_pos w + 16)%nat w)).
  set (sid := token_of_bytes (next_bytes 32 w1)).
  assert (Hdb1 : db_ok (users w1)) by (simpl; now apply db_ok_insert).
  assert (Hin1 : In u (users w1)) by (simpl; apply in_or_app; right; now left).
  exists w1, sid, (logged_in sid u w1).
  split; [exact (register_ok name password hashed w Hf Hh) |].
  split; [exact (login_ok u password w1 Hdb1 Hin1 (verify_hash _ _ _ Hh) Hup) |].
  split; [apply issued_token_nonempty |].
  intros request Hc.
  rewrite (get_current_user_stored request sid u (clock w1 + 86400)
             (logged_in sid u w1) Hc (issued_token_nonempty w1) Hup
             (logged_in_lookup sid u w1) Hdb1 Hin1).
  simpl clock. now replace (clock w <? clock w + 86400)%Z with true
    by (symmetry; apply Z.ltb_lt; lia).
Qed.

End RoundTrip.

(** The scenario of a first visit, run on the example world with an
    empty table: register, a login with a wrong password, a login with
    the right one, the protected page, logout, the protected page
    again. *)
Example scenario :
  let post p f := demo_request POST p [] f in
  let get p c := demo_request GET p c [] in
  let app := app (pwd_context := checksum_context) in
  let alice := [("username", "alice"); ("password", "secret123")] in
  let r1 := app (post "/register" alice) demo_empty_world in
  let r2 := app (post "/login" [("username", "alice"); ("password", "wrong")]) (snd r1) in
  let r3 := app (post "/login" alice) (snd r2) in
  let cookie := map (fun c => (key c, value c)) (set_cookies (fst r3)) in
  let r4 := app (get "/protected" cookie) (snd r3) in
  let r5 := app (get "/logout" cookie) (snd r4) in
  let r6 := app (get "/protected" cookie) (snd r5) in
  (status_code (fst r1), location (fst r1)) = (303, Some "/login") /\
  (status_code (fst r2), set_cookies (fst r2)) = (401, []) /\
  (status_code (fst r3), location (fst r3), map key (set_cookies (fst r3))) =
    (303, Some "/", ["session_id"]) /\
  (status_code (fst r4), option_map username
     match body (fst r4) with Template _ u _ => u | _ => None end) =
    (200, Some "alice") /\
  (map max_age (set_cookies (fst r5)), map_to_list (redis_keys (snd r5))) =
    ([0], []) /\
  (status_code (fst r6), location (fst r6)) = (303, Some "/login").
Proof. vm_compute. repeat split. Qed.

(** ** Who gets in: soundness of authentication and of session reads *)

Section Soundness.

Context {pwd_context : CryptContext}.

Lemma scalar_one_or_none_some (rows : list User) (u : User) (w w' : World) :
  scalar_one_or_none rows w = (Ok (Some u), w') -> rows = [u] /\ w' = w.
Proof.
  destruct rows as [| a [| b l]]; intros [= <- <-] || intros [=]; auto.
Qed.

Lemma authenticate_user_some (name password : string) (w w' : World) (u : User) :
  authenticate_user name password w = (Ok (Some u), w') ->
  In u (users w) /\ username u = name /\
  verify password (password_hash u) = Some true /\ w' = w.
Proof.
  unfold authenticate_user, bind, select_where_username.
  destruct (scalar_one_or_none _ w) as [[[a |] | e] w1] eqn:E;
    try (intros [=]; fail).
  apply scalar_one_or_none_some in E as [E ->].
  assert (Ha : In a (List.filter (fun x => String.eqb (username x) name) (users w)))
    by (rewrite E; now left).
  apply filter_In in Ha as [Hin Hn]. apply String.eqb_eq in Hn.
  unfold pwd_context_verify, ret, raise.
  destruct (verify password (password_hash a)) as [[|] |] eqn:Hv; simpl;
    intros [= <- <-] || intros [=]; auto.
Qed.

Lemma login_success (name password : string)
    (w w' : World) (response : Response) :
  login name password w = (Ok response, w') ->
  set_cookies response <> [] ->
  exists user,
    In user (users w) /\ username user = name /\
    verify password (password_hash user) = Some true /\
    response =
      set_session_cookie (RedirectResponse "/" 303) (token_of_bytes (next_bytes 32 w)) /\
    w' = logged_in (token_of_bytes (next_bytes 32 w)) user w.
Proof.
  unfold login. intros H Hc.
  apply bind_inv in H as [(o & w1 & A & H) | (e & _ & [=])].
  destruct o as [user |].
  - apply authenticate_user_some in A as (Hin & Hn & Hv & ->).
    rewrite (bind_ok _ _ _ _ _ (token_urlsafe_spec 32 w)) in H.
    unfold bind, r_setex, ret in H. simpl redis_up in H.
    destruct (redis_up w); [| discriminate H].
    injection H as <- <-. exists user. auto.
  - injection H as <- _. now contradiction Hc.
Qed.

(** X1. A POST to [/login] is answered with a session cookie only if
    both form fields were sent and the table has a user under the
    submitted name whose stored hash the submitted password verifies
    against; the response is then the redirect to [/] with the fresh
    token, and the session stored is that user's. *)
Theorem login_only_with_valid_credentials (request : Request)
    (w w' : World) (response : Response) :
  method request = POST -> path request = "/login" ->
  app request w = (response, w') ->
  set_cookies response <> [] ->
  exists name password user,
    Form (form request) "username" = Some name /\
    Form (form request) "password" = Some password /\
    In user (users w) /\ username user = name /\
    verify password (password_hash user) = Some true /\
    response =
      set_session_cookie (RedirectResponse "/" 303) (token_of_bytes (next_bytes 32 w)) /\
    w' = logged_in (token_of_bytes (next_bytes 32 w)) user w.
Proof.
  intros Hm Hp. unfold app. rewrite (route_post_login request Hm Hp).
  destruct (bind _ _ w) as [[response0 | e] w0] eqn:E.
  - intros [= <- <-] Hc.
    apply bind_inv in E as [((name, password) & w1 & F & L) | (e & _ & [=])].
    unfold form_username_password in F.
    destruct (Form (form request) "username") as [u |] eqn:Fu;
      destruct (Form (form request) "password") as [p |] eqn:Fp;
      try discriminate F.
    injection F as <- <- <-. simpl in L.
    destruct (login_success _ _ _ _ _ L Hc) as (user & ? & ? & ? & ? & ?).
    exists u, p, user. auto 8.
  - intros [= <- _] Hc. exfalso. apply Hc. now destruct e.
Qed.

Lemma get_current_user_some (request : Request) (w w' : World) (user : User) :
  get_current_user request w = (Ok (Some user), w') ->
  redis_up w = true /\ In user (users w) /\
  exists session_id v expiry,
    has_session request session_id /\ session_id <> "" /\
    redis_keys w !! ("session:" ++ session_id) = Some (v, expiry) /\
    clock w < expiry /\
    int v w = (Ok (id user), w).
Proof.
  unfold get_current_user, has_session.
  destruct (cookies request !! "session_id") as [[| c s] |];
    try (intros [=]; fail).
  unfold bind at 1. unfold r_get. destruct (redis_up w); [| intros [=]].
  destruct (redis_keys w !! _) as [[v expiry] |] eqn:K; [| intros [=]].
  destruct (clock w <? expiry)%Z eqn:T; [| intros [=]].
  apply Z.ltb_lt in T.
  destruct v as [| c' v']; [intros [=] |].
  unfold int. destruct (NilZero.int_of_string (String c' v')) as [d |] eqn:D;
    [| intros [=]].
  unfold bind, ret, select_where_id. intros H.
  apply scalar_one_or_none_some in H as [E _].
  assert (Ha : In user (List.filter (fun x => (id x =? Z.of_int d)%Z) (users w)))
    by (rewrite E; now left).
  apply filter_In in Ha as [Hin Hid]. apply Z.eqb_eq in Hid.
  split; [reflexivity |]. split; [exact Hin |].
  exists (String c s), (String c' v'), expiry.
  repeat split; auto; try discriminate.
  unfold int. rewrite D. now rewrite Hid.
Qed.

(** X2. A session read returns a user only for a request whose cookie
    names an entry of a reachable store that has not expired and whose
    value parses to that user's id, and the user is a record of the
    table. *)
Theorem get_current_user_sound (request : Request) (w w' : World) (user : User) :
  get_current_user request w = (Ok (Some user), w') ->
  redis_up w = true /\ In user (users w) /\
  exists session_id v expiry,
    has_session request session_id /\ session_id <> "" /\
    redis_keys w !! ("session:" ++ session_id) = Some (v, expiry) /\
    clock w < expiry /\
    int v w = (Ok (id user), w).
Proof.
  intros H. apply get_current_user_some in H as (Hup & Hin & sid & v & ex & H).
  split; [exact Hup |]. split; [exact Hin |]. exists sid, v, ex. exact H.
Qed.

End Soundness.

(** ** The pages that read the session *)

Section Pages.

Context {pwd_context : CryptContext}.

Lemma route_get_protected (request : Request) :
  method request = GET -> path request = "/protected" ->
  route request = protected request.
Proof. intros Hm Hp. unfold route. now rewrite Hm, Hp. Qed.

Lemma route_get_home (request : Request) :
  method request = GET -> path request = "/" ->
  route request = home request.
Proof. intros Hm Hp. unfold route. now rewrite Hm, Hp. Qed.

(** X3. The protected page has three outcomes and changes nothing:
    200 with the page of the user that the session read returned, who
    is a record of the table; the 303 redirect to [/login] when the read
    returned nobody; 500 when the read raised. *)
Theorem protected_outcomes (request : Request) (w w' : World)
    (response : Response) :
  method request = GET -> path request = "/protected" ->
  app request w = (response, w') ->
  w' = w /\
  ((exists user,
      get_current_user request w = (Ok (Some user), w) /\
      In user (users w) /\
      response = mkResponse 200 None (Template "protected.html" (Some user) None) []) \/
   (get_current_user request w = (Ok None, w) /\
    response = mkResponse 303 (Some "/login") NoBody []) \/
   (exists e,
      get_current_user request w = (Raise e, w) /\
      (e = ConnectionError \/ e = ValueError \/ e = MultipleResultsFound) /\
      response = mkResponse 500 None (Text "Internal Server Error") [])).
Proof.
  intros Hm Hp. unfold app. rewrite (route_get_protected request Hm Hp).
  unfold protected, bind.
  destruct (get_current_user request w) as [[[user |] | e] w1] eqn:E;
    pose proof (get_current_user_frame _ _ _ _ E) as ->.
  - intros [= <- <-]. split; [reflexivity |]. left. exists user.
    repeat split. now apply get_current_user_some in E.
  - intros [= <- <-]. split; [reflexivity |]. right. left. now split.
  - intros [= <- <-]. split; [reflexivity |]. right. right. exists e.
    assert (He : e = ConnectionError \/ e = ValueError \/ e = MultipleResultsFound).
    { revert E. unfold get_current_user.
      destruct (cookies request !! "session_id") as [[| c s] |];
        try (intros [=]; fail).
      unfold bind, r_get. destruct (redis_up w); [| intros [= <-]; auto].
      destruct (redis_keys w !! _) as [[v expiry] |];
        [destruct (clock w <? expiry)%Z |]; try (intros [=]; fail).
      destruct v as [| c' v]; [intros [=] |].
      unfold int. destruct (NilZero.int_of_string _); [| intros [= <-]; auto].
      unfold ret, select_where_id, scalar_one_or_none, raise.
      destruct (List.filter _ _) as [| u [| u' l]]; intros [= <-] || intros [=]; auto. }
    repeat split; auto. now destruct He as [-> | [-> | ->]].
Qed.

End Pages.

Section Denials.

Context {pwd_context : CryptContext}.

Lemma get_current_user_no_live_entry (request : Request) (w : World) :
  no_live_entry request w -> get_current_user request w = (Ok None, w).
Proof.
  unfold no_live_entry, get_current_user.
  destruct (cookies request !! "session_id") as [[| c s] |]; try reflexivity.
  intros [Hup H]. unfold bind, r_get. rewrite Hup.
  destruct (redis_keys w !! _) as [[v expiry] |]; [| reflexivity].
  now replace (clock w <? expiry)%Z with false by (symmetry; apply Z.ltb_ge; lia).
Qed.

(** X4. Without a usable session (no cookie, an empty cookie, a token
    that the store does not hold, or one whose entry has reached its
    expiry) the protected page answers with the 303 redirect to
    [/login], the home page renders for nobody, and neither changes the
    world; without a cookie this holds even when the store is
    unreachable. *)
Theorem no_session_no_access (request : Request) (w : World) :
  method request = GET -> no_live_entry request w ->
  (path request = "/protected" ->
   app request w = (mkResponse 303 (Some "/login") NoBody [], w)) /\
  (path request = "/" ->
   app request w = (mkResponse 200 None (Template "home.html" None None) [], w)).
Proof.
  intros Hm Hn. pose proof (get_current_user_no_live_entry request w Hn) as G.
  split; intros Hp; unfold app.
  - rewrite (route_get_protected request Hm Hp). unfold protected.
    now rewrite (bind_ok _ _ _ _ _ G).
  - rewrite (route_get_home request Hm Hp). unfold home.
    now rewrite (bind_ok _ _ _ _ _ G).
Qed.

(** X5. A session whose value is an id that no record of the table
    has resolves to nobody, not to an error, and the read leaves the
    orphaned entry in the store. *)
Theorem orphaned_session_resolves_to_nobody (request : Request)
    (session_id : string) (n expiry : Z) (w : World) :
  has_session request session_id -> redis_up w = true ->
  redis_keys w !! ("session:" ++ session_id) = Some (str n, expiry) ->
  (forall u, In u (users w) -> id u <> n) ->
  get_current_user request w = (Ok None, w).
Proof.
  intros Hc Hup Hk Hno. unfold get_current_user. rewrite Hc.
  destruct session_id as [| c s]; [reflexivity |].
  unfold bind at 1. unfold r_get. rewrite Hup, Hk.
  destruct (clock w <? expiry)%Z; [| reflexivity].
  destruct (str n) as [| c' v] eqn:E; [reflexivity |].
  rewrite <- E. rewrite (bind_ok _ _ _ _ _ (int_str n w)).
  unfold bind, select_where_id.
  now rewrite (select_absent _ id Z.eqb Z.eqb_eq n (users w) Hno).
Qed.

(** X6. Of the GET routes only [/logout] can change the world: the
    home page, the two forms, the protected page and any unknown path
    leave the table, the store, the clock and the random source as they
    were, whether they answer with a page, a redirect or an error. *)
Theorem get_pages_change_nothing (request : Request) (w : World) :
  method request = GET -> path request <> "/logout" ->
  snd (app request w) = w.
Proof.
  intros Hm Hp.
  destruct (String.eqb_spec (path request) "/") as [E | N1];
    [apply app_read_frame; auto |].
  destruct (String.eqb_spec (path request) "/protected") as [E | N2];
    [apply app_read_frame; auto |].
  rewrite app_route. unfold route. rewrite Hm.
  destruct (String.eqb_spec (path request) "/"); [contradiction |].
  destruct (String.eqb_spec (path request) "/register"); [reflexivity |].
  destruct (String.eqb_spec (path request) "/login"); [reflexivity |].
  destruct (String.eqb_spec (path request) "/logout"); [contradiction |].
  destruct (String.eqb_spec (path request) "/protected"); [contradiction |].
  reflexivity.
Qed.

End Denials.

(** ** Logout, and what a login does to the other sessions *)

Section Logout.

Context {pwd_context : CryptContext}.

Lemma session_key_inj (a b : string) :
  "session:" ++ a = "session:" ++ b -> a = b.
Proof. intros H. simpl in H. now injection H. Qed.

(** X7. With the store reachable, logout always succeeds with the 303
    redirect to [/] that clears the cookie; afterwards the store has no
    entry for the request's token, every other entry and the table are
    as they were, and a second logout with the same request changes
    nothing more. *)
Theorem logout_revokes_only_its_session (request : Request) (w : World) :
  redis_up w = true ->
  exists w',
    logout request w =
      (Ok (mkResponse 303 (Some "/") NoBody
             [mkCookie "session_id" "" false false "lax" 0]), w') /\
    (forall session_id, has_session request session_id -> session_id <> "" ->
       redis_keys w' !! ("session:" ++ session_id) = None) /\
    (forall k, (forall session_id, has_session request session_id ->
                  k <> "session:" ++ session_id) ->
       redis_keys w' !! k = redis_keys w !! k) /\
    users w' = users w /\
    snd (logout request w') = w'.
Proof.
  intros Hup. unfold logout, has_session.
  destruct (cookies request !! "session_id") as [[| c s] |] eqn:Hc.
  - exists w. repeat split; auto. intros sid [= <-] Hne. contradiction.
  - exists (set_redis_keys (delete ("session:" ++ String c s) (redis_keys w)) w).
    unfold bind, r_delete. simpl redis_up. rewrite Hup. simpl.
    repeat split.
    + intros sid [= <-] _. apply lookup_delete_eq.
    + intros k Hk. apply lookup_delete_ne. intros E. now apply (Hk (String c s)).
    + unfold set_redis_keys. simpl. now rewrite delete_delete_eq.
  - exists w. repeat split; auto. intros sid [=].
Qed.

(** X8. Logout at the edges.  Without a session cookie, or with an
    empty one, it succeeds and touches nothing, store reachable or not.
    With a cookie and the store unreachable, the delete raises: the
    request ends as a server error, no header clears the cookie, and
    the world is as it was. *)
Theorem logout_edges (request : Request) (w : World) :
  method request = GET -> path request = "/logout" ->
  (cookies request !! "session_id" = None \/
   cookies request !! "session_id" = Some "" ->
   app request w =
     (mkResponse 303 (Some "/") NoBody
        [mkCookie "session_id" "" false false "lax" 0], w)) /\
  (forall session_id,
     has_session request session_id -> session_id <> "" ->
     redis_up w = false ->
     logout request w = (Raise ConnectionError, w) /\
     app request w =
       (mkResponse 500 None (Text "Internal Server Error") [], w)).
Proof.
  intros Hm Hp.
  assert (R : route request = logout request).
  { unfold route. now rewrite Hm, Hp. }
  unfold app. rewrite R. unfold logout, has_session. split.
  - now intros [-> | ->].
  - intros sid -> Hne Hdown. destruct sid as [| c s]; [contradiction |].
    unfold bind, r_delete. now rewrite Hdown.
Qed.

(** X9. A login touches at most the entry of the token it issues:
    every other session in the store, of the same user or of another,
    is as it was, so logging in again does not end earlier sessions.
    Nor does a login change the table. *)
Theorem login_keeps_other_sessions (name password : string) (w w' : World)
    (r : result Response) (session_id : string) :
  login name password w = (r, w') ->
  session_id <> token_of_bytes (next_bytes 32 w) ->
  redis_keys w' !! ("session:" ++ session_id) =
    redis_keys w !! ("session:" ++ session_id) /\
  users w' = users w.
Proof.
  unfold login. intros H Hne.
  apply bind_inv in H as [(o & w1 & A & H) | (e & A & _)];
    apply authenticate_user_frame in A; subst; [| auto].
  destruct o as [user |]; [| injection H as _ <-; auto].
  rewrite (bind_ok _ _ _ _ _ (token_urlsafe_spec 32 w)) in H.
  unfold bind, r_setex, ret in H. simpl redis_up in H.
  destruct (redis_up w); injection H as _ <-; simpl; [| auto].
  split; [| reflexivity]. apply lookup_insert_ne.
  intros E. apply session_key_inj in E. now apply Hne.
Qed.

End Logout.

(** ** The table and the store along a history *)

Section Invariants.

Context {pwd_context : CryptContext}.

Lemma register_refused (name password : string) (w : World) :
  ~ In name (map username (users w)) ->
  hash_salted (next_bytes 16 w) password = None ->
  register name password w =
    (Raise ValueError, set_urandom_pos (urandom_pos w + 16)%nat w).
Proof.
  intros Hf Hh.
  assert (Ha : forall u, In u (users w) -> username u <> name).
  { intros u Hu E. apply Hf. rewrite <- E. now apply in_map. }
  unfold register.
  rewrite (bind_ok _ _ _ _ _ (select_username_absent name w Ha)).
  unfold bind, scalar_one_or_none, ret, create_user, pwd_context_hash, bind,
    os_urandom, ret.
  fold (next_bytes 16 w). now rewrite Hh.
Qed.

(** X10. On a table that satisfies its constraints, register has three
    outcomes and no other.  The name is taken: it raises the 400 with
    nothing changed, whatever the password.  The name is free and the
    hasher refuses the password: the [ValueError] of the hasher escapes
    (a server error), and the table and the store are as they were.
    The name is free and the hasher returns a hash: it succeeds,
    appending one record with that hash, whose id is larger than every
    id of the table, and the table still satisfies its constraints. *)
Theorem register_outcomes (name password : string) (w : World) :
  db_ok (users w) ->
  (In name (map username (users w)) /\
   register name password w =
     (Raise (HTTPException 400 "Username already exists"), w)) \/
  (~ In name (map username (users w)) /\
   hash_salted (next_bytes 16 w) password = None /\
   exists w',
     register name password w = (Raise ValueError, w') /\
     users w' = users w /\ redis_keys w' = redis_keys w) \/
  (~ In name (map username (users w)) /\
   exists hashed w',
     hash_salted (next_bytes 16 w) password = Some hashed /\
     register name password w =
       (Ok (mkResponse 303 (Some "/login") NoBody []), w') /\
     users w' = (users w ++ [mkUser (next_id (users w)) name hashed])%list /\
     (forall u, In u (users w) -> id u < next_id (users w)) /\
     db_ok (users w')).
Proof.
  intros Hdb.
  destruct (in_dec string_dec name (map username (users w))) as [Hin | Hf].
  - left. split; [exact Hin |].
    apply in_map_iff in Hin as (u & <- & Hu). unfold register.
    now rewrite (bind_ok _ _ _ _ _ (select_username_unique u w Hdb Hu)).
  - right. destruct (hash_salted (next_bytes 16 w) password) as [hashed |] eqn:Hh.
    + right. split; [exact Hf |]. exists hashed. eexists.
      split; [reflexivity |].
      split; [exact (register_ok name password hashed w Hf Hh) |].
      simpl. split; [reflexivity |]. split.
      * intros u. apply next_id_above.
      * now apply db_ok_insert.
    + left. split; [exact Hf |]. split; [reflexivity |]. eexists.
      split; [exact (register_refused name password w Hf Hh) |].
      split; reflexivity.
Qed.

Lemma step_users (e : Event) (w : World) :
  exists k, users (step e w) = (users w ++ k)%list.
Proof.
  destruct e as [request | seconds | |]; simpl;
    try (exists []; now rewrite app_nil_r).
  rewrite app_route. destruct (route request w) as [r w'] eqn:E. simpl snd.
  apply route_effect in E as [_ [-> | (n & p & _ & _ & _ & _ & h & _ & _ & ->)]];
    [exists []; now rewrite app_nil_r | eauto].
Qed.

(** X11. The table only grows at its end: after any history, the
    records that were there are still there, unchanged and in the same
    order, before the ones registered since. *)
Theorem records_never_change (es : list Event) (w : World) :
  exists added, users (run_events es w) = (users w ++ added)%list.
Proof.
  revert w. induction es as [| e es IH]; intros w.
  - exists []. now rewrite app_nil_r.
  - rewrite run_events_cons. destruct (IH (step e w)) as [k ->].
    destruct (step_users e w) as [k' ->].
    exists (k' ++ k)%list. now rewrite app_assoc.
Qed.

(** X12. Starting with an empty table, after any history the ids of
    the table are pairwise distinct and so are its usernames. *)
Theorem table_constraints_hold (es : list Event) (w : World) :
  users w = [] -> db_ok (users (run_events es w)).
Proof.
  intros Hw. apply run_events_db_ok. rewrite Hw. split; constructor.
Qed.

Lemma login_store_effect (name password : string) (w w' : World)
    (r : result Response) :
  login name password w = (r, w') ->
  redis_keys w' = redis_keys w \/
  exists user,
    In user (users w) /\
    w' = logged_in (token_of_bytes (next_bytes 32 w)) user w.
Proof.
  unfold login. intros H.
  apply bind_inv in H as [(o & w1 & A & H) | (e & A & _)];
    [| apply authenticate_user_frame in A; subst; auto].
  destruct o as [user |].
  - apply authenticate_user_some in A as (Hin & _ & _ & ->).
    rewrite (bind_ok _ _ _ _ _ (token_urlsafe_spec 32 w)) in H.
    unfold bind, r_setex, ret in H. simpl redis_up in H.
    destruct (redis_up w); injection H as _ <-; eauto.
  - apply authenticate_user_frame in A. subst. injection H as _ <-. auto.
Qed.

Lemma logout_store_effect (request : Request) (w w' : World)
    (r : result Response) :
  logout request w = (r, w') ->
  redis_keys w' = redis_keys w \/
  exists k, redis_keys w' = delete k (redis_keys w).
Proof.
  unfold logout, bind.
  destruct (cookies request !! "session_id") as [[| c s] |];
    try (intros [= _ <-]; auto).
  unfold r_delete. destruct (redis_up w); intros [= _ <-]; simpl; eauto.
Qed.

Lemma route_store_effect (request : Request) (w w' : World)
    (r : result Response) :
  route request w = (r, w') ->
  redis_keys w' = redis_keys w \/
  (exists k, redis_keys w' = delete k (redis_keys w)) \/
  (exists session_id user,
     In user (users w) /\
     redis_keys w' =
       <["session:" ++ session_id := (str (id user), clock w + 86400)]>
         (redis_keys w)).
Proof.
  unfold route. destruct (method request).
  - destruct (String.eqb (path request) "/");
      [| destruct (String.eqb (path request) "/register");
         [| destruct (String.eqb (path request) "/login");
            [| destruct (String.eqb (path request) "/logout");
               [| destruct (String.eqb (path request) "/protected")]]]].
    + unfold home, bind.
      destruct (get_current_user request w) as [[o | x] w1] eqn:E;
        apply get_current_user_frame in E; subst w1; intros [= _ <-]; auto.
    + intros [= _ <-]. auto.
    + intros [= _ <-]. auto.
    + intros H. apply logout_store_effect in H as [-> | ?]; auto.
    + unfold protected, bind.
      destruct (get_current_user request w) as [[[u |] | x] w1] eqn:E;
        apply get_current_user_frame in E; subst w1; intros [= _ <-]; auto.
    + intros [= _ <-]. auto.
  - assert (F : forall (up : result (string * string)) w1,
              form_username_password (form request) w = (up, w1) -> w1 = w).
    { intros up w1. unfold form_username_password.
      destruct (Form (form request) "username"), (Form (form request) "password");
        now intros [= _ <-]. }
    destruct (String.eqb (path request) "/register");
      [| destruct (String.eqb (path request) "/login")].
    + intros H. apply bind_inv in H as [(up & w1 & E & H) | (x & E & _)];
        apply F in E; subst; [| auto].
      apply register_effect in H as (_ & -> & _). auto.
    + intros H. apply bind_inv in H as [(up & w1 & E & H) | (x & E & _)];
        apply F in E; subst; [| auto].
      apply login_store_effect in H as [-> | (user & Hin & ->)]; [auto |].
      right. right. eauto.
    + destruct (String.eqb (path request) "/"),
        (String.eqb (path request) "/logout"),
        (String.eqb (path request) "/protected");
        intros [= _ <-]; auto.
Qed.

Lemma step_sessions_ok (e : Event) (w : World) :
  sessions_ok w -> sessions_ok (step e w).
Proof.
  intros Hs. destruct (step_users e w) as [added Hu].
  assert (Hmono : forall k v expiry,
            redis_keys w !! k = Some (v, expiry) ->
            exists session_id user,
              k = "session:" ++ session_id /\ In user (users (step e w)) /\
              v = str (id user)).
  { intros k v expiry Hk. destruct (Hs k v expiry Hk) as (sid & u & -> & Hin & ->).
    exists sid, u. rewrite Hu. auto using in_or_app. }
  destruct e as [request | seconds | |]; try exact Hmono.
  unfold sessions_ok. intros k v expiry. simpl in *.
  rewrite app_route in *. destruct (route request w) as [r w'] eqn:E.
  simpl snd in *.
  apply route_store_effect in E
    as [-> | [[k' ->] | (sid & user & Hin & ->)]].
  - apply Hmono.
  - intros [_ Hk]%lookup_delete_Some. now apply (Hmono k v expiry).
  - intros [[<- [= <- <-]] | [_ Hk]]%lookup_insert_Some.
    + exists sid, user. rewrite Hu. auto using in_or_app.
    + now apply (Hmono k v expiry).
Qed.

Lemma run_events_sessions_ok (es : list Event) (w : World) :
  sessions_ok w -> sessions_ok (run_events es w).
Proof.
  revert w. induction es as [| e es IH]; intros w H; [exact H |].
  rewrite run_events_cons. apply IH. now apply step_sessions_ok.
Qed.

Lemma fresh_sessions_ok (w : World) : fresh w -> sessions_ok w.
Proof.
  intros [_ Hk] k v expiry. rewrite Hk, lookup_empty. discriminate.
Qed.

(** X13. Starting with an empty table and an empty store, after any
    history every entry of the store has a key of the form
    [session:<token>] and, as its value, the numeral of the id of a
    user who is in the table: no session refers to a user that does
    not exist. *)
Theorem sessions_refer_to_users (es : list Event) (w : World) :
  fresh w -> sessions_ok (run_events es w).
Proof.
  intros H. apply run_events_sessions_ok. now apply fresh_sessions_ok.
Qed.

(** X14. Starting with an empty table and an empty store, after any
    history and with the store reachable, a session read never raises:
    it returns nobody exactly when the request has no usable session,
    and the protected page answers 200 or the redirect to [/login]
    accordingly, never 500. *)
Theorem reads_never_fail (es : list Event) (w : World) (request : Request) :
  fresh w -> redis_up (run_events es w) = true ->
  exists o,
    get_current_user request (run_events es w) = (Ok o, run_events es w) /\
    (o = None <-> no_live_entry request (run_events es w)) /\
    (method request = GET -> path request = "/protected" ->
     fst (app request (run_events es w)) =
       match o with
       | Some user =>
           mkResponse 200 None (Template "protected.html" (Some user) None) []
       | None => mkResponse 303 (Some "/login") NoBody []
       end).
Proof.
  intros Hf Hup.
  pose proof (run_events_sessions_ok es w (fresh_sessions_ok w Hf)) as Hs.
  assert (Hdb : db_ok (users (run_events es w))).
  { apply run_events_db_ok. destruct Hf as [-> _]. split; constructor. }
  set (w' := run_events es w) in *.
  assert (G : exists o, get_current_user request w' = (Ok o, w') /\
                        (o = None <-> no_live_entry request w')).
  { unfold no_live_entry.
    destruct (cookies request !! "session_id") as [[| c s] |] eqn:Hc;
      try (exists None; split; [unfold get_current_user; now rewrite Hc | tauto]).
    destruct (redis_keys w' !! ("session:" ++ String c s))
      as [[v expiry] |] eqn:Hk.
    - destruct (Hs _ _ _ Hk) as (sid & user & _ & Hin & ->).
      exists (if (clock w' <? expiry)%Z then Some user else None).
      split; [apply (get_current_user_stored request (String c s)); auto;
              discriminate |].
      destruct (Z.ltb_spec (clock w') expiry); split; try tauto;
        try discriminate.
      intros [_ ?]. lia.
    - exists None. split; [| tauto].
      now apply (get_current_user_absent request (String c s)). }
  destruct G as (o & G & Ho). exists o. split; [exact G |]. split; [exact Ho |].
  intros Hm Hp. unfold app. rewrite (route_get_protected request Hm Hp).
  unfold protected. rewrite (bind_ok _ _ _ _ _ G). now destruct o.
Qed.

End Invariants.

(** ** The cookie that a login sets *)

Section CookieFormat.

Context {pwd_context : CryptContext}.

Lemma rstrip_keep (c x : ascii) (s : list ascii) :
  x <> c -> rstrip c (x :: s) = x :: rstrip c s.
Proof.
  intros Hx. simpl. destruct (rstrip c s); [| reflexivity].
  now destruct (Ascii.eqb_spec x c).
Qed.

Lemma b64_char_in_alphabet (i : Z) : In (b64_char i) b64_alphabet.
Proof.
  unfold b64_char.
  destruct (nth_in_or_default (Z.to_nat i) b64_alphabet "A"%char) as [H | ->];
    [exact H | now left].
Qed.

(** The token of 32 bytes: 43 characters of the URL-safe alphabet. *)
Lemma token_of_32_bytes (bs : list Z) :
  length bs = 32%nat ->
  exists cs,
    token_of_bytes bs = string_of_list_ascii cs /\
    length cs = 43%nat /\ List.Forall (fun c => In c b64_alphabet) cs.
Proof.
  intros Hl.
  do 32 (destruct bs as [| ? bs]; [discriminate Hl |]).
  destruct bs; [| discriminate Hl]. clear Hl.
  unfold token_of_bytes. cbn [urlsafe_b64encode].
  rewrite !rstrip_keep by apply b64_char_not_pad.
  eexists. split; [reflexivity |]. split; [reflexivity |].
  repeat (constructor; [apply b64_char_in_alphabet |]). constructor.
Qed.

(** X16. The cookie of a successful login: it is the only one, named
    [session_id], HttpOnly, SameSite lax, not marked Secure; its value
    is a token of 43 characters of the URL-safe base 64 alphabet,
    without padding; and its Max-Age is the time to live of the entry
    that the store now holds under that token, 86400 seconds, so
    cookie and session run out together. *)
Theorem login_cookie_matches_session (name password : string) (w w' : World)
    (response : Response) :
  login name password w = (Ok response, w') ->
  set_cookies response <> [] ->
  exists token cs v,
    set_cookies response = [mkCookie "session_id" token true false "lax" 86400] /\
    token = string_of_list_ascii cs /\ length cs = 43%nat /\
    List.Forall (fun c => In c b64_alphabet) cs /\
    redis_keys w' !! ("session:" ++ token) = Some (v, clock w' + 86400).
Proof.
  intros H Hc.
  destruct (login_success _ _ _ _ _ H Hc) as (user & _ & _ & _ & -> & ->).
  destruct (token_of_32_bytes (next_bytes 32 w)) as (cs & E & Hl & Ha).
  { unfold next_bytes. now rewrite length_map, length_seq. }
  exists (token_of_bytes (next_bytes 32 w)), cs, (str (id user)).
  repeat split; auto.
  exact (logged_in_lookup (token_of_bytes (next_bytes 32 w)) user w).
Qed.

End CookieFormat.

(** ** The example hasher verifies its own output *)

Lemma int_of_string_str (n : Z) :
  NilZero.int_of_string (str n) = Some (Z.to_int n).
Proof.
  unfold str. apply NilZero.isi; destruct n; simpl; try discriminate;
    intros [= E]; now apply DecimalPos.Unsigned.to_uint_nonnil in E.
Qed.

Lemma split_dollar_uint (d : Decimal.uint) (r : string) :
  split_dollar (NilEmpty.string_of_uint d ++ String "$" r) =
    Some (NilEmpty.string_of_uint d, r).
Proof. induction d; simpl; try rewrite IHd; reflexivity. Qed.

Lemma split_dollar_nilzero (d : Decimal.uint) (r : string) :
  split_dollar (NilZero.string_of_uint d ++ String "$" r) =
    Some (NilZero.string_of_uint d, r).
Proof.
  destruct d; try reflexivity;
    unfold NilZero.string_of_uint; apply split_dollar_uint.
Qed.

Lemma split_dollar_str (n : Z) (r : string) :
  split_dollar (str n ++ String "$" r) = Some (str n, r).
Proof.
  unfold str. destruct (Z.to_int n) as [d | d]; unfold NilZero.string_of_int.
  - apply split_dollar_nilzero.
  - simpl. now rewrite split_dollar_nilzero.
Qed.

Lemma checksum_verify_hash (salt : list Z) (password hashed : string) :
  @hash_salted checksum_context salt password = Some hashed ->
  @verify checksum_context password hashed = Some true.
Proof.
  simpl. destruct (refused password); [discriminate |].
  set (n := fold_left _ salt 0). intros [= <-]. f_equal.
  change ("$" ++ str (checksum n password))
    with (String "$" (str (checksum n password))).
  rewrite split_dollar_str, int_of_string_str, DecimalZ.of_to.
  apply String.eqb_refl.
Qed.

(** ** The statements above on the example world *)

Lemma login_only_with_valid_credentials_witness :
  exists user,
    In user (users demo_world) /\ username user = "alice" /\
    @verify checksum_context "secret123" (password_hash user) = Some true.
Proof.
  destruct (login_only_with_valid_credentials (pwd_context := checksum_context)
              (demo_request POST "/login" []
                 [("username", "alice"); ("password", "secret123")])
              demo_world demo_logged_in
              (set_session_cookie (RedirectResponse "/" 303) demo_session))
    as (name & password & user & Fu & Fp & Hin & Hn & Hv & _).
  - reflexivity.
  - reflexivity.
  - vm_compute. reflexivity.
  - discriminate.
  - exists user. vm_compute in Fu, Fp. injection Fu as <-. injection Fp as <-.
    auto.
Defined.

Lemma get_current_user_sound_witness :
  redis_up demo_logged_in = true /\ In demo_alice (users demo_logged_in).
Proof.
  destruct (get_current_user_sound (demo_read "/protected") demo_logged_in
              demo_logged_in demo_alice) as (Hup & Hin & _).
  - vm_compute. reflexivity.
  - split; [exact Hup | exact Hin].
Defined.

Lemma protected_outcomes_witness :
  demo_logged_in = demo_logged_in /\
  ((exists user,
      get_current_user (demo_read "/protected") demo_logged_in =
        (Ok (Some user), demo_logged_in) /\
      In user (users demo_logged_in) /\
      mkResponse 200 None (Template "protected.html" (Some demo_alice) None) [] =
        mkResponse 200 None (Template "protected.html" (Some user) None) []) \/
   (get_current_user (demo_read "/protected") demo_logged_in =
      (Ok None, demo_logged_in) /\
    mkResponse 200 None (Template "protected.html" (Some demo_alice) None) [] =
      mkResponse 303 (Some "/login") NoBody []) \/
   (exists e,
      get_current_user (demo_read "/protected") demo_logged_in =
        (Raise e, demo_logged_in) /\
      (e = ConnectionError \/ e = ValueError \/ e = MultipleResultsFound) /\
      mkResponse 200 None (Template "protected.html" (Some demo_alice) None) [] =
        mkResponse 500 None (Text "Internal Server Error") [])).
Proof.
  apply (protected_outcomes (pwd_context := checksum_context)
           (demo_read "/protected") demo_logged_in demo_logged_in
           (mkResponse 200 None (Template "protected.html" (Some demo_alice) None) [])).
  - reflexivity.
  - reflexivity.
  - vm_compute. reflexivity.
Defined.

Lemma no_session_no_access_witness :
  app (pwd_context := checksum_context)
    (demo_request GET "/protected" [] []) demo_world =
    (mkResponse 303 (Some "/login") NoBody [], demo_world).
Proof.
  apply (no_session_no_access (pwd_context := checksum_context)
           (demo_request GET "/protected" [] []) demo_world).
  - reflexivity.
  - vm_compute. exact I.
  - reflexivity.
Defined.

Lemma orphaned_session_resolves_to_nobody_witness :
  get_current_user (demo_request GET "/" [("session_id", "tok")] [])
    demo_orphan_world = (Ok None, demo_orphan_world).
Proof.
  apply (orphaned_session_resolves_to_nobody
           (demo_request GET "/" [("session_id", "tok")] []) "tok" 7 5000
           demo_orphan_world).
  - vm_compute. reflexivity.
  - reflexivity.
  - vm_compute. reflexivity.
  - intros u [<- | []]. discriminate.
Defined.

Lemma get_pages_change_nothing_witness :
  snd (app (pwd_context := checksum_context) (demo_read "/") demo_logged_in) =
    demo_logged_in.
Proof.
  apply (get_pages_change_nothing (pwd_context := checksum_context)
           (demo_read "/") demo_logged_in).
  - reflexivity.
  - discriminate.
Defined.

Lemma logout_revokes_only_its_session_witness :
  exists w',
    logout (demo_read "/logout") demo_logged_in =
      (Ok (mkResponse 303 (Some "/") NoBody
             [mkCookie "session_id" "" false false "lax" 0]), w') /\
    redis_keys w' !! ("session:" ++ demo_session) = None /\
    users w' = users demo_logged_in.
Proof.
  destruct (logout_revokes_only_its_session (demo_read "/logout") demo_logged_in)
    as (w' & L & Hgone & _ & Hu & _).
  - reflexivity.
  - exists w'. split; [exact L |]. split; [| exact Hu].
    apply Hgone; [vm_compute; reflexivity | discriminate].
Defined.

Lemma logout_edges_witness :
  app (pwd_context := checksum_context)
    (demo_request GET "/logout" [] []) (set_redis_up false demo_world) =
    (mkResponse 303 (Some "/") NoBody
       [mkCookie "session_id" "" false false "lax" 0],
     set_redis_up false demo_world).
Proof.
  destruct (logout_edges (pwd_context := checksum_context)
              (demo_request GET "/logout" [] []) (set_redis_up false demo_world))
    as [H _].
  - reflexivity.
  - reflexivity.
  - apply H. left. vm_compute. reflexivity.
Defined.

Lemma login_keeps_other_sessions_witness :
  redis_keys
    (snd (login (pwd_context := checksum_context) "alice" "secret123" demo_logged_in))
    !! ("session:" ++ demo_session) =
    redis_keys demo_logged_in !! ("session:" ++ demo_session) /\
  users (snd (login (pwd_context := checksum_context) "alice" "secret123"
                demo_logged_in)) =
    users demo_logged_in.
Proof.
  apply (login_keeps_other_sessions (pwd_context := checksum_context)
           "alice" "secret123" demo_logged_in _
           (fst (login (pwd_context := checksum_context) "alice" "secret123"
                   demo_logged_in))).
  - vm_compute. reflexivity.
  - vm_compute. discriminate.
Defined.

Lemma register_outcomes_witness :
  (In "bob" (map username (users demo_world)) /\
   register (pwd_context := checksum_context) "bob" demo_nul_password demo_world =
     (Raise (HTTPException 400 "Username already exists"), demo_world)) \/
  (~ In "bob" (map username (users demo_world)) /\
   @hash_salted checksum_context (next_bytes 16 demo_world) demo_nul_password = None /\
   exists w',
     register (pwd_context := checksum_context) "bob" demo_nul_password demo_world =
       (Raise ValueError, w') /\
     users w' = users demo_world /\ redis_keys w' = redis_keys demo_world) \/
  (~ In "bob" (map username (users demo_world)) /\
   exists hashed w',
     @hash_salted checksum_context (next_bytes 16 demo_world) demo_nul_password =
       Some hashed /\
     register (pwd_context := checksum_context) "bob" demo_nul_password demo_world =
       (Ok (mkResponse 303 (Some "/login") NoBody []), w') /\
     users w' =
       (users demo_world ++ [mkUser (next_id (users demo_world)) "bob" hashed])%list /\
     (forall u, In u (users demo_world) -> id u < next_id (users demo_world)) /\
     db_ok (users w')).
Proof.
  apply (register_outcomes (pwd_context := checksum_context)
           "bob" demo_nul_password demo_world).
  exact demo_db_ok.
Defined.

Lemma table_constraints_hold_witness :
  db_ok (users (run_events (pwd_context := checksum_context)
                  demo_history demo_empty_world)).
Proof.
  apply (table_constraints_hold (pwd_context := checksum_context)
           demo_history demo_empty_world).
  reflexivity.
Defined.

Lemma sessions_refer_to_users_witness :
  sessions_ok (run_events (pwd_context := checksum_context)
                 demo_history demo_empty_world).
Proof.
  apply (sessions_refer_to_users (pwd_context := checksum_context)
           demo_history demo_empty_world).
  split; reflexivity.
Defined.

Lemma reads_never_fail_witness :
  exists o,
    get_current_user (demo_read "/protected")
      (run_events (pwd_context := checksum_context) demo_history demo_empty_world) =
      (Ok o, run_events (pwd_context := checksum_context)
               demo_history demo_empty_world).
Proof.
  destruct (reads_never_fail (pwd_context := checksum_context)
              demo_history demo_empty_world (demo_read "/protected"))
    as (o & G & _).
  - split; reflexivity.
  - vm_compute. reflexivity.
  - exists o. exact G.
Defined.

Lemma register_then_login_witness :
  exists w1 session_id w2,
    register (pwd_context := checksum_context) "bob" "hunter2" demo_world =
      (Ok (mkResponse 303 (Some "/login") NoBody []), w1) /\
    login (pwd_context := checksum_context) "bob" "hunter2" w1 =
      (Ok (mkResponse 303 (Some "/") NoBody
             [mkCookie "session_id" session_id true false "lax" 86400]), w2) /\
    session_id <> "" /\
    forall request, has_session request session_id ->
      get_current_user request w2 =
        (Ok (Some (mkUser (next_id (users demo_world)) "bob"
                     (default ""
                        (@hash_salted checksum_context (next_bytes 16 demo_world)
                           "hunter2")))), w2).
Proof.
  apply (register_then_login (pwd_context := checksum_context)
           checksum_verify_hash "bob" "hunter2" _ demo_world).
  - exact demo_db_ok.
  - simpl. intros [H | []]. discriminate H.
  - reflexivity.
  - vm_compute. reflexivity.
Defined.

Lemma login_cookie_matches_session_witness :
  exists token cs v,
    set_cookies (set_session_cookie (RedirectResponse "/" 303) demo_session) =
      [mkCookie "session_id" token true false "lax" 86400] /\
    token = string_of_list_ascii cs /\ length cs = 43%nat /\
    List.Forall (fun c => In c b64_alphabet) cs /\
    redis_keys demo_logged_in !! ("session:" ++ token) =
      Some (v, clock demo_logged_in + 86400).
Proof.
  apply (login_cookie_matches_session (pwd_context := checksum_context)
           "alice" "secret123" demo_world demo_logged_in
           (set_session_cookie (RedirectResponse "/" 303) demo_session)).
  - vm_compute. reflexivity.
  - discriminate.
Defined.

(** ** Inserting without the check *)

Section CreateUser.

Context {pwd_context : CryptContext}.

Lemma create_user_cases (name password : string) (w : World) :
  create_user name password w =
    match hash_salted (next_bytes 16 w) password with
    | None => (Raise ValueError, set_urandom_pos (urandom_pos w + 16)%nat w)
    | Some hashed =>
        if existsb (fun u => String.eqb (username u) name) (users w)
        then (Raise IntegrityError, set_urandom_pos (urandom_pos w + 16)%nat w)
        else
          (Ok (mkUser (next_id (users w)) name hashed),
           set_users (users w ++ [mkUser (next_id (users w)) name hashed])%list
             (set_urandom_pos (urandom_pos w + 16)%nat w))
    end.
Proof.
  unfold create_user, pwd_context_hash, bind, os_urandom, ret, raise,
    db_add_commit_refresh.
  fold (next_bytes 16 w).
  destruct (hash_salted (next_bytes 16 w) password); [| reflexivity].
  simpl users. now destruct (existsb _ _).
Qed.

(** X17. [create_user] itself does not look for the name: it hashes,
    then inserts.  When the hasher refuses the password, its
    [ValueError] escapes and the table is as it was, whatever the name.
    Otherwise, under a free name it returns the new record, with the
    next id and the hash of the password, appended to the table; under
    a name that the table has, which is what a second registration
    finds when the first one committed after its check, the insert is
    refused with an integrity error and the table is as it was.  In
    particular a second [create_user] under the same name never
    succeeds. *)
Theorem create_user_unique_name (name password : string) (w : World) :
  (hash_salted (next_bytes 16 w) password = None ->
   exists w',
     create_user name password w = (Raise ValueError, w') /\
     users w' = users w) /\
  (forall hashed,
     hash_salted (next_bytes 16 w) password = Some hashed ->
     (In name (map username (users w)) ->
      exists w',
        create_user name password w = (Raise IntegrityError, w') /\
        users w' = users w) /\
     (~ In name (map username (users w)) ->
      exists w',
        create_user name password w =
          (Ok (mkUser (next_id (users w)) name hashed), w') /\
        users w' = (users w ++ [mkUser (next_id (users w)) name hashed])%list /\
        forall password', exists e w'',
          create_user name password' w' = (Raise e, w'') /\
          (e = IntegrityError \/ e = ValueError) /\
          users w'' = users w')).
Proof.
  split; [| intros hashed Hh; split].
  - intros Hh. rewrite create_user_cases, Hh. eexists. split; reflexivity.
  - intros Hin. rewrite create_user_cases, Hh.
    destruct (existsb _ _) eqn:E; [eexists; split; reflexivity |].
    apply existsb_username in E. contradiction.
  - intros Hf. rewrite create_user_cases, Hh.
    apply existsb_username in Hf. rewrite Hf. clear Hf.
    eexists. split; [reflexivity |]. split; [reflexivity |].
    intros password'. rewrite create_user_cases. simpl users.
    destruct (hash_salted _ password');
      [| eexists; eexists; split; [reflexivity | split; [now right | reflexivity]]].
    destruct (existsb _ _) eqn:E;
      [eexists; eexists; split; [reflexivity | split; [now left | reflexivity]] |].
    apply existsb_username in E. exfalso. apply E.
    rewrite map_app. apply in_or_app. right. now left.
Qed.

End CreateUser.

Lemma create_user_unique_name_witness :
  exists w',
    create_user (pwd_context := checksum_context) "bob" "hunter2" demo_empty_world =
      (Ok demo_bob, w') /\
    users w' = (users demo_empty_world ++ [demo_bob])%list /\
    exists e w'',
      create_user (pwd_context := checksum_context) "bob" "other" w' =
        (Raise e, w'') /\
      (e = IntegrityError \/ e = ValueError) /\
      users w'' = users w'.
Proof.
  destruct (create_user_unique_name (pwd_context := checksum_context)
              "bob" "hunter2" demo_empty_world) as [_ H].
  destruct (H (password_hash demo_bob)) as [_ H'].
  - vm_compute. reflexivity.
  - destruct H' as (w' & C & Hu & Again).
    + simpl. intros [].
    + exists w'. split; [exact C |]. split; [exact Hu |]. apply Again.
Defined.

(** ** The token determines the bytes it was made of *)

Lemma is_byte_in_all (a : Z) : is_byte a -> In a all_bytes.
Proof.
  intros H. unfold is_byte in H. apply in_map_iff. exists (Z.to_nat a).
  split; [lia |]. apply in_seq. lia.
Qed.

Lemma for_all_bytes (P : Z -> bool) :
  forallb P all_bytes = true -> forall a, is_byte a -> P a = true.
Proof.
  intros H a Ha. apply (proj1 (forallb_forall P _) H).
  now apply is_byte_in_all.
Qed.

Lemma for_all_byte_pairs (P : Z -> Z -> bool) :
  forallb (fun a => forallb (P a) all_bytes) all_bytes = true ->
  forall a b, is_byte a -> is_byte b -> P a b = true.
Proof.
  intros H a b Ha Hb.
  apply (for_all_bytes (P a)); [| exact Hb].
  now apply (for_all_bytes (fun a => forallb (P a) all_bytes)).
Qed.

(** The four indices of a group of three bytes are below 64. *)
Lemma sextet_ranges (a b : Z) :
  is_byte a -> is_byte b ->
  0 <= Z.shiftr a 2 < 64 /\
  0 <= Z.lor (Z.shiftl (Z.land a 3) 4) (Z.shiftr b 4) < 64 /\
  0 <= Z.lor (Z.shiftl (Z.land a 15) 2) (Z.shiftr b 6) < 64 /\
  0 <= Z.land a 63 < 64 /\
  0 <= Z.shiftl (Z.land a 3) 4 < 64 /\
  0 <= Z.shiftl (Z.land a 15) 2 < 64.
Proof.
  intros Ha Hb.
  pose proof (for_all_byte_pairs
    (fun a b =>
       ((0 <=? Z.shiftr a 2) && (Z.shiftr a 2 <? 64) &&
       (0 <=? Z.lor (Z.shiftl (Z.land a 3) 4) (Z.shiftr b 4)) &&
       (Z.lor (Z.shiftl (Z.land a 3) 4) (Z.shiftr b 4) <? 64) &&
       (0 <=? Z.lor (Z.shiftl (Z.land a 15) 2) (Z.shiftr b 6)) &&
       (Z.lor (Z.shiftl (Z.land a 15) 2) (Z.shiftr b 6) <? 64) &&
       (0 <=? Z.land a 63) && (Z.land a 63 <? 64) &&
       (0 <=? Z.shiftl (Z.land a 3) 4) && (Z.shiftl (Z.land a 3) 4 <? 64) &&
       (0 <=? Z.shiftl (Z.land a 15) 2) && (Z.shiftl (Z.land a 15) 2 <? 64))%Z)
    ltac:(vm_compute; reflexivity) a b Ha Hb) as H.
  repeat (apply andb_prop in H as [H ?]).
  repeat match goal with
         | H : (_ <=? _)%Z = true |- _ => apply Z.leb_le in H
         | H : (_ <? _)%Z = true |- _ => apply Z.ltb_lt in H
         end.
  lia.
Qed.

(** How the bytes of a group are read back from its indices. *)
Lemma byte_decoding (a b : Z) :
  is_byte a -> is_byte b ->
  Z.lor (Z.shiftl (Z.shiftr a 2) 2)
    (Z.shiftr (Z.lor (Z.shiftl (Z.land a 3) 4) (Z.shiftr b 4)) 4) = a /\
  Z.lor (Z.shiftl (Z.shiftr a 2) 2) (Z.shiftr (Z.shiftl (Z.land a 3) 4) 4) = a /\
  Z.land (Z.lor (Z.shiftl (Z.land a 3) 4) (Z.shiftr b 4)) 15 = Z.shiftr b 4 /\
  Z.shiftr (Z.lor (Z.shiftl (Z.land a 15) 2) (Z.shiftr b 6)) 2 = Z.land a 15 /\
  Z.land (Z.lor (Z.shiftl (Z.land a 15) 2) (Z.shiftr b 6)) 3 = Z.shiftr b 6 /\
  Z.shiftr (Z.shiftl (Z.land a 15) 2) 2 = Z.land a 15 /\
  Z.lor (Z.shiftl (Z.shiftr a 4) 4) (Z.land a 15) = a /\
  Z.lor (Z.shiftl (Z.shiftr a 6) 6) (Z.land a 63) = a.
Proof.
  intros Ha Hb.
  pose proof (for_all_byte_pairs
    (fun a b =>
       ((Z.lor (Z.shiftl (Z.shiftr a 2) 2)
          (Z.shiftr (Z.lor (Z.shiftl (Z.land a 3) 4) (Z.shiftr b 4)) 4) =? a) &&
       (Z.lor (Z.shiftl (Z.shiftr a 2) 2)
          (Z.shiftr (Z.shiftl (Z.land a 3) 4) 4) =? a) &&
       (Z.land (Z.lor (Z.shiftl (Z.land a 3) 4) (Z.shiftr b 4)) 15 =? Z.shiftr b 4) &&
       (Z.shiftr (Z.lor (Z.shiftl (Z.land a 15) 2) (Z.shiftr b 6)) 2 =? Z.land a 15) &&
       (Z.land (Z.lor (Z.shiftl (Z.land a 15) 2) (Z.shiftr b 6)) 3 =? Z.shiftr b 6) &&
       (Z.shiftr (Z.shiftl (Z.land a 15) 2) 2 =? Z.land a 15) &&
       (Z.lor (Z.shiftl (Z.shiftr a 4) 4) (Z.land a 15) =? a) &&
       (Z.lor (Z.shiftl (Z.shiftr a 6) 6) (Z.land a 63) =? a))%Z)
    ltac:(vm_compute; reflexivity) a b Ha Hb) as H.
  repeat (apply andb_prop in H as [H ?]).
  repeat match goal with
         | H : (_ =? _)%Z = true |- _ => apply Z.eqb_eq in H
         end.
  repeat split; assumption.
Qed.

Lemma b64_alphabet_NoDup : List.NoDup b64_alphabet.
Proof.
  assert (H : nodup ascii_dec b64_alphabet = b64_alphabet)
    by (vm_compute; reflexivity).
  rewrite <- H. apply List.NoDup_nodup.
Qed.

Lemma b64_char_inj (i j : Z) :
  0 <= i < 64 -> 0 <= j < 64 -> b64_char i = b64_char j -> i = j.
Proof.
  intros Hi Hj E. unfold b64_char in E.
  assert (Hl : length b64_alphabet = 64%nat) by reflexivity.
  apply (proj1 (List.NoDup_nth b64_alphabet "A"%char) b64_alphabet_NoDup) in E;
    lia.
Qed.

Lemma group_of_three_inj (a b c a' b' c' : Z) :
  is_byte a -> is_byte b -> is_byte c ->
  is_byte a' -> is_byte b' -> is_byte c' ->
  b64_char (Z.shiftr a 2) = b64_char (Z.shiftr a' 2) ->
  b64_char (Z.lor (Z.shiftl (Z.land a 3) 4) (Z.shiftr b 4)) =
    b64_char (Z.lor (Z.shiftl (Z.land a' 3) 4) (Z.shiftr b' 4)) ->
  b64_char (Z.lor (Z.shiftl (Z.land b 15) 2) (Z.shiftr c 6)) =
    b64_char (Z.lor (Z.shiftl (Z.land b' 15) 2) (Z.shiftr c' 6)) ->
  b64_char (Z.land c 63) = b64_char (Z.land c' 63) ->
  a = a' /\ b = b' /\ c = c'.
Proof.
  intros Ha Hb Hc Ha' Hb' Hc' E1 E2 E3 E4.
  apply b64_char_inj in E1; try apply (sextet_ranges a b Ha Hb);
    try apply (sextet_ranges a' b' Ha' Hb').
  apply b64_char_inj in E2; try apply (sextet_ranges a b Ha Hb);
    try apply (sextet_ranges a' b' Ha' Hb').
  apply b64_char_inj in E3; try apply (sextet_ranges b c Hb Hc);
    try apply (sextet_ranges b' c' Hb' Hc').
  apply b64_char_inj in E4; try apply (sextet_ranges c c Hc Hc);
    try apply (sextet_ranges c' c' Hc' Hc').
  destruct (byte_decoding a b Ha Hb) as (A1 & _ & A3 & _ & _ & _ & _ & _).
  destruct (byte_decoding a' b' Ha' Hb') as (A1' & _ & A3' & _ & _ & _ & _ & _).
  destruct (byte_decoding b c Hb Hc) as (_ & _ & _ & B4 & B5 & _ & B7 & _).
  destruct (byte_decoding b' c' Hb' Hc') as (_ & _ & _ & B4' & B5' & _ & B7' & _).
  destruct (byte_decoding c c Hc Hc) as (_ & _ & _ & _ & _ & _ & _ & C8).
  destruct (byte_decoding c' c' Hc' Hc') as (_ & _ & _ & _ & _ & _ & _ & C8').
  repeat split.
  - rewrite <- A1, <- A1'. now rewrite E1, E2.
  - rewrite <- B7, <- B7'. rewrite <- A3, <- A3', <- B4, <- B4'.
    now rewrite E2, E3.
  - rewrite <- C8, <- C8'. rewrite <- B5, <- B5'. now rewrite E3, E4.
Qed.

Lemma group_of_two_inj (a b a' b' : Z) :
  is_byte a -> is_byte b -> is_byte a' -> is_byte b' ->
  b64_char (Z.shiftr a 2) = b64_char (Z.shiftr a' 2) ->
  b64_char (Z.lor (Z.shiftl (Z.land a 3) 4) (Z.shiftr b 4)) =
    b64_char (Z.lor (Z.shiftl (Z.land a' 3) 4) (Z.shiftr b' 4)) ->
  b64_char (Z.shiftl (Z.land b 15) 2) = b64_char (Z.shiftl (Z.land b' 15) 2) ->
  a = a' /\ b = b'.
Proof.
  intros Ha Hb Ha' Hb' E1 E2 E3.
  apply b64_char_inj in E1; try apply (sextet_ranges a b Ha Hb);
    try apply (sextet_ranges a' b' Ha' Hb').
  apply b64_char_inj in E2; try apply (sextet_ranges a b Ha Hb);
    try apply (sextet_ranges a' b' Ha' Hb').
  apply b64_char_inj in E3; try apply (sextet_ranges b b Hb Hb);
    try apply (sextet_ranges b' b' Hb' Hb').
  destruct (byte_decoding a b Ha Hb) as (A1 & _ & A3 & _ & _ & _ & _ & _).
  destruct (byte_decoding a' b' Ha' Hb') as (A1' & _ & A3' & _ & _ & _ & _ & _).
  destruct (byte_decoding b b Hb Hb) as (_ & _ & _ & _ & _ & B6 & B7 & _).
  destruct (byte_decoding b' b' Hb' Hb') as (_ & _ & _ & _ & _ & B6' & B7' & _).
  split.
  - rewrite <- A1, <- A1'. now rewrite E1, E2.
  - rewrite <- B7, <- B7'. rewrite <- A3, <- A3', <- B6, <- B6'.
    now rewrite E2, E3.
Qed.

Lemma group_of_one_inj (a a' : Z) :
  is_byte a -> is_byte a' ->
  b64_char (Z.shiftr a 2) = b64_char (Z.shiftr a' 2) ->
  b64_char (Z.shiftl (Z.land a 3) 4) = b64_char (Z.shiftl (Z.land a' 3) 4) ->
  a = a'.
Proof.
  intros Ha Ha' E1 E2.
  apply b64_char_inj in E1; try apply (sextet_ranges a a Ha Ha);
    try apply (sextet_ranges a' a' Ha' Ha').
  apply b64_char_inj in E2; try apply (sextet_ranges a a Ha Ha);
    try apply (sextet_ranges a' a' Ha' Ha').
  destruct (byte_decoding a a Ha Ha) as (_ & A2 & _).
  destruct (byte_decoding a' a' Ha' Ha') as (_ & A2' & _).
  rewrite <- A2, <- A2'. now rewrite E1, E2.
Qed.

Lemma list_ind3 (P : list Z -> Prop) :
  P [] -> (forall a, P [a]) -> (forall a b, P [a; b]) ->
  (forall a b c l, P l -> P (a :: b :: c :: l)) ->
  forall l, P l.
Proof.
  intros H0 H1 H2 H3 l.
  assert (H : P l /\ (forall a, P (a :: l)) /\ (forall a b, P (a :: b :: l))).
  { induction l as [| x l (IH0 & IH1 & IH2)]; [auto |].
    split; [apply IH1 |]. split; [intros a; apply IH2 |].
    intros a b. now apply H3. }
  apply H.
Qed.

(** The characters of a token, group by group. *)
Lemma token_chars_one (a : Z) :
  rstrip "="%char (urlsafe_b64encode [a]) =
    [b64_char (Z.shiftr a 2); b64_char (Z.shiftl (Z.land a 3) 4)].
Proof.
  cbn [urlsafe_b64encode]. now rewrite !rstrip_keep by apply b64_char_not_pad.
Qed.

Lemma token_chars_two (a b : Z) :
  rstrip "="%char (urlsafe_b64encode [a; b]) =
    [b64_char (Z.shiftr a 2);
     b64_char (Z.lor (Z.shiftl (Z.land a 3) 4) (Z.shiftr b 4));
     b64_char (Z.shiftl (Z.land b 15) 2)].
Proof.
  cbn [urlsafe_b64encode]. now rewrite !rstrip_keep by apply b64_char_not_pad.
Qed.

Lemma token_chars_three (a b c : Z) (l : list Z) :
  rstrip "="%char (urlsafe_b64encode (a :: b :: c :: l)) =
    b64_char (Z.shiftr a 2)
    :: b64_char (Z.lor (Z.shiftl (Z.land a 3) 4) (Z.shiftr b 4))
    :: b64_char (Z.lor (Z.shiftl (Z.land b 15) 2) (Z.shiftr c 6))
    :: b64_char (Z.land c 63)
    :: rstrip "="%char (urlsafe_b64encode l).
Proof.
  cbn [urlsafe_b64encode]. now rewrite !rstrip_keep by apply b64_char_not_pad.
Qed.

Lemma token_chars_inj (bs : list Z) :
  forall bs',
    List.Forall is_byte bs -> List.Forall is_byte bs' ->
    rstrip "="%char (urlsafe_b64encode bs) =
      rstrip "="%char (urlsafe_b64encode bs') ->
    bs = bs'.
Proof.
  induction bs as [| a | a b | a b c l IH] using list_ind3;
    intros [| a' [| b' [| c' l']]] Hb Hb';
    rewrite ?token_chars_one, ?token_chars_two, ?token_chars_three;
    intros E; try reflexivity; try discriminate E;
    repeat match goal with
           | H : List.Forall _ (_ :: _) |- _ =>
               apply List.Forall_cons_iff in H as [? H]
           end.
  - injection E as E1 E2. f_equal. now apply group_of_one_inj.
  - injection E as E1 E2 E3.
    destruct (group_of_two_inj a b a' b') as [-> ->]; auto.
  - injection E as E1 E2 E3 E4 E5.
    destruct (group_of_three_inj a b c a' b' c') as (-> & -> & ->); auto.
    do 3 f_equal. now apply IH.
Qed.

Lemma token_of_bytes_inj (bs bs' : list Z) :
  List.Forall is_byte bs -> List.Forall is_byte bs' ->
  token_of_bytes bs = token_of_bytes bs' -> bs = bs'.
Proof.
  intros Hb Hb' E. apply token_chars_inj; auto.
  unfold token_of_bytes in E.
  apply (f_equal list_ascii_of_string) in E.
  now rewrite !list_ascii_of_string_of_list_ascii in E.
Qed.

Lemma next_bytes_are_bytes (n : nat) (w : World) :
  List.Forall is_byte (next_bytes n w).
Proof.
  unfold next_bytes. apply List.Forall_forall. intros b Hb.
  apply in_map_iff in Hb as (i & <- & _). apply Z.mod_pos_bound. lia.
Qed.

Section TokenBytes.

Context {pwd_context : CryptContext}.

Lemma login_issues (name password : string) (w w1 : World)
    (response : Response) (c : Cookie) :
  login name password w = (Ok response, w1) -> In c (set_cookies response) ->
  value c = token_of_bytes (next_bytes 32 w) /\
  urandom w1 = urandom w /\ urandom_pos w1 = (urandom_pos w + 32)%nat.
Proof.
  intros H Hc.
  assert (Hne : set_cookies response <> []) by (intros E; now rewrite E in Hc).
  destruct (login_success _ _ _ _ _ H Hne) as (user & _ & _ & _ & -> & ->).
  destruct Hc as [<- | []]. repeat split.
Qed.

(** X18. The token of a login is the encoding of the 32 bytes that the
    random source hands out next, and the encoding loses nothing: if a
    later login, after any history, issues the same token again, then
    the source has handed out, at a position after those 32 bytes, the
    very same 32 bytes once more.  Tokens repeat only if the random
    source does. *)
Theorem same_token_only_if_source_repeats (name password name' password' : string)
    (w w1 w2 : World) (es : list Event) (response response' : Response)
    (c c' : Cookie) :
  login name password w = (Ok response, w1) -> In c (set_cookies response) ->
  login name' password' (run_events es w1) = (Ok response', w2) ->
  In c' (set_cookies response') ->
  value c' = value c ->
  value c = token_of_bytes (next_bytes 32 w) /\
  exists k,
    (urandom_pos w + 32 <= k)%nat /\
    map (fun i => urandom w i mod 256) (seq k 32) = next_bytes 32 w.
Proof.
  intros H Hc H' Hc' E.
  destruct (login_issues _ _ _ _ _ _ H Hc) as (V & Hu & Hp).
  destruct (login_issues _ _ _ _ _ _ H' Hc') as (V' & _ & _).
  destruct (run_events_environment es w1) as [Hu' Hp'].
  split; [exact V |].
  exists (urandom_pos (run_events es w1)). split; [lia |].
  rewrite V, V' in E.
  apply token_of_bytes_inj in E; auto using next_bytes_are_bytes.
  rewrite <- E. unfold next_bytes. now rewrite Hu', Hu.
Qed.

End TokenBytes.

Lemma same_token_only_if_source_repeats_witness :
  exists k,
    (urandom_pos demo_world + 32 <= k)%nat /\
    map (fun i => urandom demo_world i mod 256) (seq k 32) =
      next_bytes 32 demo_world.
Proof.
  destruct (same_token_only_if_source_repeats (pwd_context := checksum_context)
              "alice" "secret123" "alice" "secret123"
              demo_world demo_logged_in
              (snd (login (pwd_context := checksum_context) "alice" "secret123"
                      (run_events (pwd_context := checksum_context)
                         demo_seven_logins demo_logged_in)))
              demo_seven_logins
              (set_session_cookie (RedirectResponse "/" 303) demo_session)
              (set_session_cookie (RedirectResponse "/" 303) demo_session)
              (mkCookie "session_id" demo_session true false "lax" 86400)
              (mkCookie "session_id" demo_session true false "lax" 86400))
    as [_ H].
  - vm_compute. reflexivity.
  - simpl. left. reflexivity.
  - vm_compute. reflexivity.
  - simpl. left. reflexivity.
  - reflexivity.
  - exact H.
Defined.
